(** * TemperatureDisplay: the acquisition pipeline of [main.py]

    A shallow embedding of the serial temperature logger: the text the
    acquisition loop scans ([str] of the bytes read), the marker search and
    the fixed slice handed to [float], the read/parse/emit/write cycle of
    [DataAcquirer.data_acquire_loop], the bounded plot lists of
    [MainWindow.update_chart] and the start/stop toggle of
    [MainWindow.acquire_data]. *)

From Stdlib Require Import ZArith QArith List Bool Ascii String Lia.
From Stdlib Require Import Strings.Byte.
Import ListNotations.
Open Scope string_scope.
Open Scope Z_scope.

(** ** Python text primitives *)

Module Py.

(** [c in s] for a one-character needle. *)
Fixpoint contains (c : ascii) (s : string) : bool :=
  match s with
  | EmptyString => false
  | String a s' => if Ascii.eqb a c then true else contains c s'
  end.

(** [s.find(c)]: the index of the first occurrence, [-1] when there is none. *)
Fixpoint find_from (c : ascii) (s : string) (i : Z) : Z :=
  match s with
  | EmptyString => -1
  | String a s' => if Ascii.eqb a c then i else find_from c s' (i + 1)
  end.

Definition find (c : ascii) (s : string) : Z := find_from c s 0.

Definition len (s : string) : Z := Z.of_nat (String.length s).

(** A slice bound as Python clamps it: a negative index counts from the
    end, and both ends are clipped to the string. *)
Definition clamp (s : string) (i : Z) : Z :=
  if i <? 0 then Z.max 0 (i + len s) else Z.min i (len s).

(** [s[lo:hi]]. *)
Definition slice (s : string) (lo hi : Z) : string :=
  let a := clamp s lo in
  let b := clamp s hi in
  if a <? b then String.substring (Z.to_nat a) (Z.to_nat (b - a)) s
  else EmptyString.

(** *** [str(b)] of a [bytes] object: its [repr] *)

Definition squote : ascii := "'"%char.
Definition dquote : ascii := "034"%char.
Definition backslash : ascii := "\"%char.

Definition hex_digit (n : N) : ascii :=
  match n with
  | 0%N => "0" | 1%N => "1" | 2%N => "2" | 3%N => "3" | 4%N => "4"
  | 5%N => "5" | 6%N => "6" | 7%N => "7" | 8%N => "8" | 9%N => "9"
  | 10%N => "a" | 11%N => "b" | 12%N => "c" | 13%N => "d" | 14%N => "e"
  | _ => "f"
  end%char.

(** One byte of a [bytes] repr delimited by [quote]. *)
Definition escape_byte (quote : ascii) (b : byte) : string :=
  let c := ascii_of_byte b in
  let n := Byte.to_N b in
  if Ascii.eqb c quote || Ascii.eqb c backslash then
    String backslash (String c EmptyString)
  else if N.eqb n 9 then "\t"
  else if N.eqb n 10 then "\n"
  else if N.eqb n 13 then "\r"
  else if (n <? 32)%N || (127 <=? n)%N then
    String backslash
      (String "x" (String (hex_digit (n / 16)) (String (hex_digit (n mod 16)) EmptyString)))
  else String c EmptyString.

Definition has_byte (c : ascii) (bs : list byte) : bool :=
  existsb (fun b => Ascii.eqb (ascii_of_byte b) c) bs.

(** The delimiter: a double quote only when the bytes hold a single quote
    and no double quote. *)
Definition repr_quote (bs : list byte) : ascii :=
  if has_byte squote bs && negb (has_byte dquote bs) then dquote else squote.

Fixpoint escape_all (quote : ascii) (bs : list byte) : string :=
  match bs with
  | [] => EmptyString
  | b :: bs' => escape_byte quote b ++ escape_all quote bs'
  end.

(** The prefix [b], the opening quote, the escaped bytes, the closing
    quote. *)
Definition str_bytes (bs : list byte) : string :=
  let q := repr_quote bs in
  String "b" (String q (escape_all q bs ++ String q EmptyString)).

(** The bytes the repr copies as they are: printable ASCII other than the
    quotes and the backslash. *)
Definition unescaped (b : byte) : bool :=
  let n := Byte.to_N b in
  ((32 <=? n) && (n <? 127) && negb (n =? 39) && negb (n =? 34) && negb (n =? 92))%N.

End Py.

(** ** Floats

    A [pyfloat] names the binary64 value Python holds by the exact number
    it was obtained from: [PFin neg q] is the double nearest to
    [(-1)^neg * q] (with [0 <= q]), so the two zeros stay apart; rounding
    to 53 bits is not part of the model. *)

Inductive pyfloat : Type :=
| PFin (neg : bool) (q : Q)
| PInf (neg : bool)
| PNan.

Module PyFloat.

Definition is_digit (c : ascii) : bool :=
  let n := N_of_ascii c in ((48 <=? n) && (n <=? 57))%N.

Definition digit_val (c : ascii) : Z := Z.of_N (N_of_ascii c) - 48.

(** Characters [float] strips at both ends. *)
Definition is_space (c : ascii) : bool :=
  let n := N_of_ascii c in
  (((9 <=? n) && (n <=? 13)) || (n =? 32) || (n =? 133) || (n =? 160))%N.

Definition is_underscore (c : ascii) : bool := Ascii.eqb c "_"%char.

(** Underscores are legal only between two digits; they are removed before
    the number is read. [prev] is the character just before [s]. *)
Fixpoint drop_underscores (prev : option ascii) (s : string) : option string :=
  match s with
  | EmptyString =>
      match prev with
      | Some p => if is_underscore p then None else Some EmptyString
      | None => Some EmptyString
      end
  | String c s' =>
      if is_underscore c then
        match prev with
        | Some p => if is_digit p then drop_underscores (Some c) s' else None
        | None => None
        end
      else
        let after_underscore :=
          match prev with Some p => is_underscore p | None => false end in
        if after_underscore && negb (is_digit c) then None
        else option_map (String c) (drop_underscores (Some c) s')
  end.

Fixpoint lstrip (s : string) : string :=
  match s with
  | String c s' => if is_space c then lstrip s' else s
  | EmptyString => EmptyString
  end.

Fixpoint rstrip (s : string) : string :=
  match s with
  | EmptyString => EmptyString
  | String c s' =>
      match rstrip s' with
      | EmptyString => if is_space c then EmptyString else String c EmptyString
      | r => String c r
      end
  end.

Definition strip (s : string) : string := rstrip (lstrip s).

(** A maximal run of digits: its value, its length and what follows. *)
Fixpoint take_digits (s : string) (acc : Z) (n : Z) : Z * Z * string :=
  match s with
  | String c s' =>
      if is_digit c then take_digits s' (10 * acc + digit_val c) (n + 1)
      else (acc, n, s)
  | EmptyString => (acc, n, s)
  end.

Definition take_sign (s : string) : bool * string :=
  match s with
  | String "-" s' => (true, s')
  | String "+" s' => (false, s')
  | _ => (false, s)
  end.

Definition lower (c : ascii) : ascii :=
  let n := N_of_ascii c in
  if ((65 <=? n) && (n <=? 90))%N then ascii_of_N (n + 32) else c.

Fixpoint lower_all (s : string) : string :=
  match s with
  | EmptyString => EmptyString
  | String c s' => String (lower c) (lower_all s')
  end.

(** The exponent part: [e] or [E], an optional sign and at least one
    digit, up to the end of the text. *)
Definition read_exponent (s : string) : option Z :=
  match s with
  | EmptyString => Some 0
  | String c s' =>
      if Ascii.eqb (lower c) "e"%char then
        let '(eneg, s1) := take_sign s' in
        let '(e, n, rest) := take_digits s1 0 0 in
        if (0 <? n) && String.eqb rest EmptyString
        then Some (if eneg then - e else e)
        else None
      else None
  end.

(** The largest magnitude that still rounds to a finite double is just
    below [2^1024 - 2^970]. *)
Definition overflow_bound : Q := inject_Z (2 ^ 1024 - 2 ^ 970).

Definition scale10 (m e : Z) : Q :=
  if 0 <=? e then inject_Z (m * 10 ^ e)
  else Qmake m (Z.to_pos (10 ^ (- e))).

Definition make_finite (neg : bool) (m e : Z) : pyfloat :=
  let q := scale10 m e in
  if Qle_bool overflow_bound q then PInf neg else PFin neg (Qred q).

(** An unsigned decimal number: digits, an optional point with optional
    digits, at least one digit in all, then the exponent. *)
Definition read_number (neg : bool) (s : string) : option pyfloat :=
  let '(ip, ni, s1) := take_digits s 0 0 in
  let '(m, nf, s2) :=
    match s1 with
    | String "." s1' => take_digits s1' ip 0
    | _ => (ip, 0, s1)
    end in
  if 0 <? ni + nf then
    match read_exponent s2 with
    | Some e => Some (make_finite neg m (e - nf))
    | None => None
    end
  else None.

Definition read_inf_nan (neg : bool) (s : string) : option pyfloat :=
  let l := lower_all s in
  if String.eqb l "inf" || String.eqb l "infinity" then Some (PInf neg)
  else if String.eqb l "nan" then Some PNan
  else None.

(** [float(s)] for a [str]: [None] is the [ValueError]. *)
Definition float (s : string) : option pyfloat :=
  match drop_underscores None s with
  | None => None
  | Some s0 =>
      let '(neg, body) := take_sign (strip s0) in
      match read_number neg body with
      | Some v => Some v
      | None => read_inf_nan neg body
      end
  end.

End PyFloat.

(** ** Clock values and the log record *)

(** What [time.gmtime()] returns, as far as the format string reads it. *)
Record struct_time : Type := mk_struct_time {
  tm_year : Z; tm_mon : Z; tm_mday : Z;
  tm_hour : Z; tm_min : Z; tm_sec : Z
}.

Definition valid_struct_time (tm : struct_time) : Prop :=
  1000 <= tm_year tm <= 9999 /\ 1 <= tm_mon tm <= 12 /\ 1 <= tm_mday tm <= 31 /\
  0 <= tm_hour tm <= 23 /\ 0 <= tm_min tm <= 59 /\ 0 <= tm_sec tm <= 61.

Module Time.

Definition digit (d : Z) : ascii := ascii_of_N (48 + Z.to_N (d mod 10)).

(** [%d], [%m], [%H], [%M], [%S]: two digits, zero padded. *)
Definition two_digits (n : Z) : string :=
  String (digit (n / 10)) (String (digit n) EmptyString).

(** [%Y] for the years 1000 to 9999, where every platform prints four
    digits. *)
Definition four_digits (n : Z) : string :=
  String (digit (n / 1000)) (String (digit (n / 100))
    (String (digit (n / 10)) (String (digit n) EmptyString))).

(** [time.strftime('%d/%m/%Y %H:%M:%S +0000', tm)]. *)
Definition strftime (tm : struct_time) : string :=
  two_digits (tm_mday tm) ++ "/" ++ two_digits (tm_mon tm) ++ "/" ++
  four_digits (tm_year tm) ++ " " ++
  two_digits (tm_hour tm) ++ ":" ++ two_digits (tm_min tm) ++ ":" ++
  two_digits (tm_sec tm) ++ " +0000".

(** Reading such a stamp back: the fourteen digits at their places and the
    separators between them. *)
Definition two (a b : ascii) : Z :=
  10 * PyFloat.digit_val a + PyFloat.digit_val b.

Definition four (a b c d : ascii) : Z :=
  1000 * PyFloat.digit_val a + 100 * PyFloat.digit_val b +
  10 * PyFloat.digit_val c + PyFloat.digit_val d.

Definition read_stamp (s : string) : option struct_time :=
  match list_ascii_of_string s with
  | [d1; d2; s1; m1; m2; s2; y1; y2; y3; y4; s3; h1; h2; s4; n1; n2; s5;
     c1; c2; s6; p; z1; z2; z3; z4] =>
      if forallb PyFloat.is_digit
           [d1; d2; m1; m2; y1; y2; y3; y4; h1; h2; n1; n2; c1; c2] &&
         String.eqb
           (string_of_list_ascii [s1; s2; s3; s4; s5; s6; p; z1; z2; z3; z4])
           "// :: +0000"
      then Some (mk_struct_time (four y1 y2 y3 y4) (two m1 m2) (two d1 d2)
                   (two h1 h2) (two n1 n2) (two c1 c2))
      else None
  | _ => None
  end.

End Time.

(** An f-string, as the sequence of its literal parts and of the floats it
    interpolates; the text of a float is Python's [repr], which the model
    leaves to a rendering function. *)
Inductive piece : Type :=
| Lit (s : string)
| Flt (x : pyfloat).

Definition fstring : Type := list piece.

Fixpoint render (float_text : pyfloat -> string) (fs : fstring) : string :=
  match fs with
  | [] => EmptyString
  | Lit s :: fs' => s ++ render float_text fs'
  | Flt x :: fs' => float_text x ++ render float_text fs'
  end.

Definition newline : string := String "010" EmptyString.

(** [f'{temperature}, {time_now}, {time_now_fmt}\n'] *)
Definition log_record (temperature time_now : pyfloat) (time_now_fmt : string)
  : fstring :=
  [Flt temperature; Lit ", "; Flt time_now; Lit ", "; Lit time_now_fmt; Lit newline].

(** ** The line parser: the marker test, the slice and [float] *)

Inductive parse_result : Type :=
| Parsed (temperature : pyfloat)
| NoMarker            (* the [else] branch: 'T' not in the text *)
| MalformedNumber.    (* [float] raised [ValueError] *)

Definition marker : ascii := "T"%char.

Definition field (string_sent : string) : string :=
  let t_index := Py.find marker string_sent in
  Py.slice string_sent (t_index + 2) (t_index + 9).

Definition parse (string_sent : string) : parse_result :=
  if Py.contains marker string_sent then
    match PyFloat.float (field string_sent) with
    | Some temperature => Parsed temperature
    | None => MalformedNumber
    end
  else NoMarker.

(** The parser applied to what [readline] returned: pyserial hands back
    [bytes], and the loop scans [str(string_sent)], which for bytes is their
    repr, prefix and quotes included. *)
Definition parse_raw (raw : list byte) : parse_result :=
  parse (Py.str_bytes raw).

(** ** The acquisition loop *)

Inductive event : Type :=
| EvOpen (path : fstring)                 (* open(self.file_path, "a") *)
| EvPrint (msg : string)
| EvReadline                              (* self.serial_object.readline() *)
| EvEmit (data : pyfloat * pyfloat)       (* self.new_data.emit([temperature, time_now]) *)
| EvWrite (line : fstring) (ok : bool)    (* f.write(...); [ok = false]: it raised *)
| EvSleep (ms : Z)                        (* time.sleep, in milliseconds *)
| EvClose                                 (* f.close() *)
| EvFinished.                             (* self.finished.emit() *)

Inductive device_read : Type :=
| ReadRaises
| ReadBytes (raw : list byte).

(** What the world answers during one pass through the loop body. *)
Record cycle_env : Type := mk_cycle_env {
  open_ok : bool;            (* does open(..., "a") succeed *)
  read : device_read;        (* the outcome of readline() *)
  clock : pyfloat;           (* time.time() *)
  gmt : struct_time;         (* time.gmtime() *)
  write_ok : bool            (* does f.write succeed *)
}.

Inductive loop_status : Type :=
| Looping
| Finished                      (* left the loop, closed f, emitted finished *)
| Raised (exn : string).        (* an exception left data_acquire_loop *)

Record acquirer : Type := mk_acquirer {
  measuring : bool;
  file_path : fstring;
  f_bound : bool;               (* has [f] been assigned *)
  status : loop_status;
  trace : list event
}.

(** [DataAcquirer.__init__]: [now] is the [time.time()] of the file name. *)
Definition acquirer_init (folder_path : string) (now : pyfloat) : acquirer :=
  mk_acquirer true
    [Lit folder_path; Lit "/temperature_log_"; Flt now; Lit ".csv"]
    false Looping [].

(** The [except Exception] handler. *)
Definition handler : list event :=
  [EvPrint "Error connecting to the serial device"; EvSleep 10000].

(** The [try] block followed by the handler when something in it raises. *)
Definition try_block (e : cycle_env) : list event :=
  EvReadline ::
  match read e with
  | ReadRaises => handler
  | ReadBytes raw =>
      match parse_raw raw with
      | Parsed temperature =>
          let time_now := clock e in
          let time_now_fmt := Time.strftime (gmt e) in
          let data := (temperature, time_now) in
          EvEmit data ::
          EvWrite (log_record temperature time_now time_now_fmt) (write_ok e) ::
          (if write_ok e then [EvSleep 250] else handler)
      | NoMarker => [EvPrint "No data in string, lets move on"; EvSleep 250]
      | MalformedNumber => handler
      end
  end.

(** One pass through the body of [while self.measuring]. *)
Definition loop_body (e : cycle_env) (a : acquirer) : acquirer :=
  if open_ok e then
    mk_acquirer (measuring a) (file_path a) true Looping
      (trace a ++ EvOpen (file_path a) :: EvPrint "Data acquiring" :: try_block e)
  else
    mk_acquirer (measuring a) (file_path a) (f_bound a) (Raised "OSError")
      (trace a ++ [EvOpen (file_path a)]).

(** After the loop: [f.close()] and [self.finished.emit()]. With [f] never
    assigned the first of them raises. *)
Definition loop_exit (a : acquirer) : acquirer :=
  if f_bound a then
    mk_acquirer (measuring a) (file_path a) true Finished
      (trace a ++ [EvClose; EvFinished])
  else
    mk_acquirer (measuring a) (file_path a) false (Raised "UnboundLocalError")
      (trace a).

(** The test of the [while] and what follows it. *)
Definition loop_step (e : cycle_env) (a : acquirer) : acquirer :=
  match status a with
  | Looping => if measuring a then loop_body e a else loop_exit a
  | _ => a
  end.

(** [self.data_thread.measuring = False], written by the window's thread. *)
Definition request_stop (a : acquirer) : acquirer :=
  mk_acquirer false (file_path a) (f_bound a) (status a) (trace a).

(** A schedule interleaves stop requests with the passes of the loop. The
    run starts at the first test of the flag: the [inWaiting()] call that
    comes before the loop, whose result is not used, is not part of it. *)
Inductive tick : Type :=
| Stop
| Cycle (e : cycle_env).

Definition tick_step (a : acquirer) (t : tick) : acquirer :=
  match t with
  | Stop => request_stop a
  | Cycle e => loop_step e a
  end.

Definition run (ts : list tick) (a : acquirer) : acquirer :=
  fold_left tick_step ts a.

(** ** The window: plot lists, labels and the acquire button *)

(** [statistics.stdev]: the square root of the sample variance, the sum of
    squared deviations from the mean over [n - 1]. *)
Module Statistics.

Definition finite (x : pyfloat) : option Q :=
  match x with
  | PFin neg q => Some (if neg then - q else q)%Q
  | _ => None
  end.

Fixpoint finite_all (xs : list pyfloat) : option (list Q) :=
  match xs with
  | [] => Some []
  | x :: xs' =>
      match finite x, finite_all xs' with
      | Some q, Some qs => Some (q :: qs)
      | _, _ => None
      end
  end.

Definition sum (qs : list Q) : Q := fold_right Qplus 0%Q qs.

Definition mean (qs : list Q) : Q :=
  (sum qs / inject_Z (Z.of_nat (List.length qs)))%Q.

Definition sum_sq_dev (qs : list Q) : Q :=
  let m := mean qs in sum (map (fun q => (q - m) * (q - m))%Q qs).

Definition variance (qs : list Q) : Q :=
  (sum_sq_dev qs / inject_Z (Z.of_nat (List.length qs) - 1))%Q.

Inductive result : Type :=
| SqrtOf (var : Q)       (* the float nearest to the square root of [var] *)
| NonFinite              (* the data hold an infinity or a nan *)
| StatisticsError.       (* fewer than two data points *)

Definition stdev (data : list pyfloat) : result :=
  if (List.length data <? 2)%nat then StatisticsError
  else match finite_all data with
       | Some qs => SqrtOf (Qred (variance qs))
       | None => NonFinite
       end.

End Statistics.

(** The text of [self.current_temp]. *)
Inductive temp_label : Type :=
| TempInitial                            (* QLabel('0') *)
| TempOf (x : pyfloat).                  (* f'{new_data[0]} °C' *)

(** The text of [self.stdev_temp]. *)
Inductive stdev_label : Type :=
| StdevInitial                           (* QLabel('0') *)
| StdevRound4 (s : Statistics.result).   (* f'{round(statistics.stdev(self.plot_y), 4)} °C' *)

Record window : Type := mk_window {
  folder_text : string;          (* self.folder_path_lineedit.text() *)
  ser : option bool;             (* None, or a Serial object and whether it is open *)
  w_measuring : bool;            (* self.measuring *)
  threads : list acquirer;       (* every DataAcquirer made; self.data_thread is the last *)
  connect_enabled : bool;
  browse_enabled : bool;
  start_text : string;           (* the caption of self.start_acquire *)
  plot_x : list pyfloat;
  plot_y : list pyfloat;
  current_temp : temp_label;
  stdev_temp : stdev_label
}.

(** [MainWindow.__init__] and [init_ui]. *)
Definition window_init : window :=
  mk_window "" None false [] true true "Acquire Data" [] [] TempInitial StdevInitial.

Definition history_limit : nat := 4000.

(** [MainWindow.update_chart] *)
Definition update_chart (new_data : pyfloat * pyfloat) (w : window) : window :=
  let full := Nat.eqb (List.length (plot_x w)) history_limit in
  let xs := ((if full then tl (plot_x w) else plot_x w) ++ [snd new_data])%list in
  let ys := ((if full then tl (plot_y w) else plot_y w) ++ [fst new_data])%list in
  mk_window (folder_text w) (ser w) (w_measuring w) (threads w)
    (connect_enabled w) (browse_enabled w) (start_text w)
    xs ys
    (TempOf (fst new_data))
    (if (2 <? List.length ys)%nat then StdevRound4 (Statistics.stdev ys)
     else stdev_temp w).

Definition with_ser (w : window) (s : option bool) : window :=
  mk_window (folder_text w) s (w_measuring w) (threads w)
    (connect_enabled w) (browse_enabled w) (start_text w)
    (plot_x w) (plot_y w) (current_temp w) (stdev_temp w).

(** [MainWindow.toggle_port]; [opens] tells whether [self.ser.open()]
    succeeds. A failed open leaves the closed Serial object in [self.ser]. *)
Definition toggle_port (opens : bool) (w : window) : window :=
  match ser w with
  | Some _ => with_ser w None
  | None => with_ser w (Some opens)
  end.

(** [MainWindow.browse_file_folder]; [path_exists] is [os.path.exists]. *)
Definition browse_file_folder (folder_path : string) (path_exists : bool)
  (w : window) : window :=
  if path_exists then
    mk_window folder_path (ser w) (w_measuring w) (threads w)
      (connect_enabled w) (browse_enabled w) (start_text w)
      (plot_x w) (plot_y w) (current_temp w) (stdev_temp w)
  else w.

(** [self.data_thread.measuring = False]: the last acquirer of the store. *)
Fixpoint stop_last (ts : list acquirer) : list acquirer :=
  match ts with
  | [] => []
  | [a] => [request_stop a]
  | a :: ts' => a :: stop_last ts'
  end.

(** How a call of a slot ends. *)
Inductive outcome : Type :=
| Returned (printed : list string)
| Raises (exn : string).

(** [MainWindow.acquire_data]; [now] is the clock read by the new
    DataAcquirer, [opens] the answer to the [toggle_port] of the stop
    branch should it try to open a port. *)
Definition acquire_data (now : pyfloat) (opens : bool) (w : window)
  : window * outcome :=
  let folder_path := folder_text w in
  if negb (w_measuring w) then
    match ser w with
    | Some is_open =>
        if (0 <? String.length folder_path)%nat then
          if is_open then
            (mk_window (folder_text w) (ser w) true
               (threads w ++ [acquirer_init folder_path now])
               false false "Stop Acquire"
               (plot_x w) (plot_y w) (current_temp w) (stdev_temp w),
             Returned [])
          else
            (* self.ser.flushOutput() on a port that is not open *)
            (mk_window (folder_text w) (ser w) false (threads w)
               (connect_enabled w) (browse_enabled w) "Stop Acquire"
               (plot_x w) (plot_y w) (current_temp w) (stdev_temp w),
             Raises "PortNotOpenError")
        else (w, Returned ["Please browse to a folder first"])
    | None => (w, Returned ["There is not a current serial connection!"])
    end
  else
    (toggle_port opens
       (mk_window (folder_text w) (ser w) false (stop_last (threads w))
          true true "Start Acquire"
          (plot_x w) (plot_y w) (current_temp w) (stdev_temp w)),
     Returned []).

(** What can happen to the application: the clicks the enabled buttons
    accept, a pass of the loop of one acquirer thread, the delivery of a
    sample to the chart. *)
Inductive app_event : Type :=
| ClickAcquire (now : pyfloat) (opens : bool)
| ClickConnect (opens : bool)
| ClickBrowse (folder_path : string) (path_exists : bool)
| ThreadCycle (i : nat) (e : cycle_env)
| NewData (data : pyfloat * pyfloat).

Fixpoint update_nth {A} (i : nat) (f : A -> A) (l : list A) : list A :=
  match l, i with
  | [], _ => []
  | x :: l', O => f x :: l'
  | x :: l', S i' => x :: update_nth i' f l'
  end.

Definition with_threads (w : window) (ts : list acquirer) : window :=
  mk_window (folder_text w) (ser w) (w_measuring w) ts
    (connect_enabled w) (browse_enabled w) (start_text w)
    (plot_x w) (plot_y w) (current_temp w) (stdev_temp w).

Definition app_step (w : window) (ev : app_event) : window :=
  match ev with
  | ClickAcquire now opens => fst (acquire_data now opens w)
  | ClickConnect opens => if connect_enabled w then toggle_port opens w else w
  | ClickBrowse p ex => if browse_enabled w then browse_file_folder p ex w else w
  | ThreadCycle i e => with_threads w (update_nth i (loop_step e) (threads w))
  | NewData d => update_chart d w
  end.

Definition app_run (evs : list app_event) (w : window) : window :=
  fold_left app_step evs w.

(** The acquirers whose [measuring] flag is set. *)
Definition active (w : window) : nat :=
  List.length (filter measuring (threads w)).

Definition bytes_of (s : string) : list byte := list_byte_of_string s.

(** The chart after the samples [ds] have been delivered in order. *)
Definition pushes (ds : list (pyfloat * pyfloat)) (w : window) : window :=
  fold_left (fun w' d => update_chart d w') ds w.

(** One bounded list of the history: drop the head when full, then append. *)
Definition push_bounded {A} (cap : nat) (l : list A) (x : A) : list A :=
  ((if Nat.eqb (List.length l) cap then tl l else l) ++ [x])%list.

(** ** Vocabulary of the statements *)

(** Every character of [s] satisfies [p]. *)
Fixpoint every (p : ascii -> bool) (s : string) : bool :=
  match s with
  | EmptyString => true
  | String c s' => p c && every p s'
  end.

(** The characters a text accepted by [float] can be made of: digits,
    blanks, the underscore, the signs, the point, and the letters of the
    exponent and of inf, infinity and nan in either case. *)
Definition number_char (c : ascii) : bool :=
  PyFloat.is_digit c || PyFloat.is_space c || PyFloat.is_underscore c ||
  Py.contains c "+-." || Py.contains (PyFloat.lower c) "einfatyn".

(** [s.split(c)] for a one-character separator. *)
Fixpoint split_on (c : ascii) (s : string) : list string :=
  match s with
  | EmptyString => [EmptyString]
  | String a s' =>
      if Ascii.eqb a c then EmptyString :: split_on c s'
      else match split_on c s' with
           | h :: t => String a h :: t
           | [] => [String a EmptyString]
           end
  end.

(** A text with no comma and no line feed in it. *)
Definition plain (s : string) : bool :=
  negb (Py.contains ","%char s) && negb (Py.contains "010"%char s).

(** [i] is the index of the first marker of [text]. *)
Definition first_marker (text : string) (i : nat) : Prop :=
  String.get i text = Some marker /\
  forall j, (j < i)%nat -> String.get j text <> Some marker.

Definition marker_byte : byte := byte_of_ascii marker.

(** Every emission comes after a completed write of the same sample. *)
Definition written_before_emitted (tr : list event) : Prop :=
  forall pre d post, tr = (pre ++ EvEmit d :: post)%list ->
    exists fmt, In (EvWrite (log_record (fst d) (snd d) fmt) true) pre.

(** Every emission is followed at once by the write call for the same
    sample. *)
Definition emitted_then_written (tr : list event) : Prop :=
  forall pre d post, tr = (pre ++ EvEmit d :: post)%list ->
    exists tm ok post',
      post = EvWrite (log_record (fst d) (snd d) (Time.strftime tm)) ok :: post'.

(** Every write call comes right after the emission of the sample it
    records. *)
Definition written_only_emitted (tr : list event) : Prop :=
  forall pre line ok post, tr = (pre ++ EvWrite line ok :: post)%list ->
    exists pre' d tm,
      pre = (pre' ++ [EvEmit d])%list /\
      line = log_record (fst d) (snd d) (Time.strftime tm).

Definition is_emit_or_write (ev : event) : bool :=
  match ev with
  | EvEmit _ | EvWrite _ _ => true
  | _ => false
  end.

(** Emissions and writes come in adjacent pairs, emission first. *)
Inductive paired : list event -> Prop :=
| paired_nil : paired []
| paired_emit d tm ok rest :
    paired rest ->
    paired (EvEmit d ::
            EvWrite (log_record (fst d) (snd d) (Time.strftime tm)) ok :: rest)
| paired_other ev rest :
    is_emit_or_write ev = false -> paired rest -> paired (ev :: rest).

(** The samples handed to the consumer, in the order of their emission. *)
Definition emitted (tr : list event) : list (pyfloat * pyfloat) :=
  flat_map (fun ev => match ev with EvEmit d => [d] | _ => [] end) tr.

(** The sample a pass captures, if the line it reads is accepted. *)
Definition captured (t : tick) : list (pyfloat * pyfloat) :=
  match t with
  | Cycle e =>
      match read e with
      | ReadBytes raw =>
          match parse_raw raw with
          | Parsed v => [(v, clock e)]
          | _ => []
          end
      | ReadRaises => []
      end
  | Stop => []
  end.

(** A pass in which [open] succeeds. *)
Definition opens_file (t : tick) : bool :=
  match t with Cycle e => open_ok e | Stop => true end.


Definition is_stop (t : tick) : bool :=
  match t with Stop => true | Cycle _ => false end.

(** What one such pass adds to the trace. *)
Definition backoff_pass (path : fstring) : list event :=
  EvOpen path :: EvPrint "Data acquiring" :: EvReadline :: handler.

(** The [measuring] flags of the acquirers, oldest first. *)
Definition flags (w : window) : list bool := map measuring (threads w).

(** What holds of every state the application reaches: the acquirers made
    earlier have their flag cleared, the last one has it set exactly while
    the window is measuring, and while it is the port is open and the
    connect button disabled. *)
Definition window_inv (w : window) : Prop :=
  (exists k, flags w = (repeat false k ++ (if w_measuring w then [true] else []))%list) /\
  (w_measuring w = true -> ser w = Some true /\ connect_enabled w = false).

(** ** Sample inputs *)

Definition crlf : string := String "013" (String "010" EmptyString).

(** 2023-11-14 22:13:20 UTC. *)
Definition clock0 : pyfloat := PFin false (inject_Z 1700000000).
Definition gmt0 : struct_time := mk_struct_time 2023 11 14 22 13 20.

(** A pass in which the device sends the line [s]. *)
Definition line_env (s : string) : cycle_env :=
  mk_cycle_env true (ReadBytes (bytes_of s)) clock0 gmt0 true.

(** A pass in which [readline] raises. *)
Definition error_env : cycle_env :=
  mk_cycle_env true ReadRaises clock0 gmt0 true.

Definition temp (n d : Z) : pyfloat * pyfloat :=
  (PFin false (Qred (Qmake n (Z.to_pos d))), clock0).

(** The samples 0, 1, ..., n-1 in the order they are pushed. *)
Definition ramp (n : nat) : list (pyfloat * pyfloat) :=
  map (fun k => temp (Z.of_nat k) 1) (List.seq 0 n).

(** A stand-in for the text of a float, for the records shown below. *)
Definition sample_text (x : pyfloat) : string :=
  match x with
  | PFin _ q => if Qeq_bool q (41 # 2) then "20.5" else "1700000000.0"
  | PInf _ => "inf"
  | PNan => "nan"
  end.

(** ** Proof steps *)

(** Closes a goal from [H : In x l] for an explicit [l] that does not hold
    [x]. *)
Ltac absent H :=
  simpl in H; repeat (destruct H as [H | H]; try discriminate); contradiction.

(** ** The port panel: [init_ports] and [toggle_port] with their texts *)

Module Ports.

(** An entry of the combo box: [str(port)[:15] + "..."]. *)
Definition item (port_text : string) : string :=
  Py.slice port_text 0 15 ++ "...".

(** [text.split(" ")[0]] *)
Definition first_word (text : string) : string :=
  match split_on " " text with
  | w :: _ => w
  | [] => EmptyString
  end.

(** A [serial.Serial] object: the port it was given and whether it is
    open. *)
Record serial_port : Type := mk_serial {
  port_name : string;
  is_open : bool
}.

Record panel : Type := mk_panel {
  items : list string;            (* the entries of self.ports_combo *)
  current : nat;                  (* its current index *)
  p_ser : option serial_port;     (* self.ser *)
  connect_text : string;          (* the caption of self.connect_button *)
  status_text : string            (* the text of self.connection_status *)
}.

(** The panel as [init_ui] leaves it. *)
Definition panel_init : panel :=
  mk_panel [] 0 None "Connect" " No Connection ".

(** [self.ports_combo.currentText()]: empty when the box has no entry. *)
Definition current_text (p : panel) : string :=
  nth (current p) (items p) EmptyString.

(** [MainWindow.init_ports]; [ports] are the [str(port)] of what
    [comports()] lists. The box is cleared first, and its first entry
    becomes the current one. *)
Definition init_ports (ports : list string) (p : panel) : panel :=
  mk_panel (map item ports) 0 (p_ser p) (connect_text p) (status_text p).

(** The user picks an entry of the box. *)
Definition choose (i : nat) (p : panel) : panel :=
  if (i <? List.length (items p))%nat
  then mk_panel (items p) i (p_ser p) (connect_text p) (status_text p)
  else p.

(** [MainWindow.toggle_port]; [opens] tells whether [self.ser.open()]
    succeeds. When it raises, the handler only prints: [self.ser] keeps the
    Serial object, closed, and the texts stay. *)
Definition toggle_port (opens : bool) (p : panel) : panel :=
  let port := first_word (current_text p) in
  match p_ser p with
  | Some _ =>
      mk_panel (items p) (current p) None "Connect" "No Connection"
  | None =>
      if opens then
        mk_panel (items p) (current p) (Some (mk_serial port true))
          "Disconnect" "CONNECTED"
      else
        mk_panel (items p) (current p) (Some (mk_serial port false))
          (connect_text p) (status_text p)
  end.

Inductive panel_event : Type :=
| Refresh (ports : list string)      (* init_ports *)
| Choose (i : nat)
| Toggle (opens : bool).             (* a click on the connect button *)

Definition panel_step (p : panel) (ev : panel_event) : panel :=
  match ev with
  | Refresh ports => init_ports ports p
  | Choose i => choose i p
  | Toggle opens => toggle_port opens p
  end.

Definition panel_run (evs : list panel_event) (p : panel) : panel :=
  fold_left panel_step evs p.

(** Is an open port held. *)
Definition connected (p : panel) : bool :=
  match p_ser p with
  | Some s => is_open s
  | None => false
  end.

End Ports.

(** ** More vocabulary *)

(** The texts of the panel tell the state of the port. *)
Definition panel_inv (p : Ports.panel) : Prop :=
  (Ports.connected p = true /\ Ports.connect_text p = "Disconnect" /\
   Ports.status_text p = "CONNECTED") \/
  (Ports.connected p = false /\ Ports.connect_text p <> "Disconnect" /\
   Ports.status_text p <> "CONNECTED").

(** The samples delivered to [update_chart] in a run of the application. *)
Definition deliveries (evs : list app_event) : list (pyfloat * pyfloat) :=
  flat_map (fun ev => match ev with NewData d => [d] | _ => [] end) evs.

(** The folders picked in the dialog that existed. *)
Definition browsed (evs : list app_event) : list string :=
  flat_map (fun ev => match ev with ClickBrowse p true => [p] | _ => [] end) evs.

(** The clock readings handed to the acquire button. *)
Definition start_times (evs : list app_event) : list pyfloat :=
  flat_map (fun ev => match ev with ClickAcquire now _ => [now] | _ => [] end) evs.

Definition count (p : event -> bool) (tr : list event) : nat :=
  List.length (filter p tr).

Definition is_open_event (ev : event) : bool :=
  match ev with EvOpen _ => true | _ => false end.

Definition is_read_event (ev : event) : bool :=
  match ev with EvReadline => true | _ => false end.

Definition is_close_event (ev : event) : bool :=
  match ev with EvClose => true | _ => false end.

Definition is_finished_event (ev : event) : bool :=
  match ev with EvFinished => true | _ => false end.

(** The time slept in a trace, in milliseconds. *)
Definition slept (tr : list event) : Z :=
  fold_right (fun ev acc => match ev with EvSleep ms => ms + acc | _ => acc end) 0 tr.

(** The records that reached the file: the writes that did not raise. *)
Definition logged (tr : list event) : list fstring :=
  flat_map (fun ev => match ev with EvWrite line true => [line] | _ => [] end) tr.

(** The record a pass leaves in the file, if it accepts its line and the
    write succeeds. *)
Definition kept (t : tick) : list fstring :=
  match t with
  | Cycle e =>
      match read e with
      | ReadBytes raw =>
          match parse_raw raw with
          | Parsed v =>
              if write_ok e
              then [log_record v (clock e) (Time.strftime (gmt e))]
              else []
          | _ => []
          end
      | ReadRaises => []
      end
  | Stop => []
  end.

Definition writes_succeed (t : tick) : bool :=
  match t with Cycle e => write_ok e | Stop => true end.

(** The buttons and the caption follow the [measuring] flag. *)
Definition buttons_inv (w : window) : Prop :=
  connect_enabled w = negb (w_measuring w) /\
  browse_enabled w = negb (w_measuring w) /\
  (w_measuring w = true -> start_text w = "Stop Acquire").

(** [folder_path + f"/temperature_log_{time.time()}.csv"] *)
Definition session_path (folder : string) (now : pyfloat) : fstring :=
  [Lit folder; Lit "/temperature_log_"; Flt now; Lit ".csv"].

(** Where the log files of the acquirers come from: a folder picked in the
    dialog and a clock reading taken at a press of the button. *)
Definition provenance (evs : list app_event) (w : window) : Prop :=
  (folder_text w = EmptyString \/ In (folder_text w) (browsed evs)) /\
  forall a, In a (threads w) ->
    exists folder now,
      file_path a = session_path folder now /\ folder <> EmptyString /\
      In folder (browsed evs) /\ In now (start_times evs).

(** What the window knows of the port, as the panel holds it. *)
Definition port_view (p : Ports.panel) : option bool :=
  option_map Ports.is_open (Ports.p_ser p).

(** What [update_chart] reads and writes of the window. *)
Definition chart_of (w : window)
  : list pyfloat * list pyfloat * temp_label * stdev_label :=
  (plot_x w, plot_y w, current_temp w, stdev_temp w).

(** No trace of the end of the loop. *)
Definition unfinished (tr : list event) : Prop :=
  ~ In EvFinished tr /\ ~ In EvClose tr.

(** What the loop keeps of its file: one path, opened at the start of every
    pass, closed at most once. *)
Definition file_inv (path : fstring) (a : acquirer) : Prop :=
  file_path a = path /\
  (forall p, In (EvOpen p) (trace a) -> p = path) /\
  ((trace a = [] /\ f_bound a = false) \/
   exists rest, trace a = EvOpen path :: rest) /\
  (count is_read_event (trace a) <= count is_open_event (trace a) <=
   S (count is_read_event (trace a)))%nat /\
  (count is_close_event (trace a) <= 1)%nat /\
  (status a = Looping ->
   count is_close_event (trace a) = 0%nat /\
   count is_open_event (trace a) = count is_read_event (trace a)).

(** Between a quarter of a second and ten seconds of sleep for every
    read. *)
Definition sleep_inv (a : acquirer) : Prop :=
  250 * Z.of_nat (count is_read_event (trace a)) <= slept (trace a) <=
  10000 * Z.of_nat (count is_read_event (trace a)).

(** * Properties *)

(** ** The bounded history ([update_chart]) *)

Section Bounded.

Context {A : Type}.
Variable cap : nat.
Hypothesis cap_pos : (0 < cap)%nat.

Lemma tl_skipn (k : nat) (l : list A) : tl (skipn k l) = skipn (S k) l.
Proof.
  revert l; induction k as [|k IH]; intros [|x l]; simpl; auto.
Qed.

(** Pushing onto the last [cap] elements of [all] leaves the last [cap]
    elements of [all ++ [x]]. *)
Lemma push_bounded_skipn (all : list A) (x : A) :
  push_bounded cap (skipn (List.length all - cap) all) x =
  skipn (List.length (all ++ [x]) - cap) (all ++ [x]).
Proof.
  unfold push_bounded. rewrite length_skipn, length_app. simpl.
  destruct (Nat.eqb_spec (List.length all - (List.length all - cap)) cap) as [E|E].
  - rewrite tl_skipn, skipn_app.
    replace (S (List.length all - cap)) with (List.length all + 1 - cap)%nat by lia.
    replace (List.length all + 1 - cap - List.length all)%nat with O by lia.
    reflexivity.
  - replace (List.length all - cap)%nat with O by lia.
    replace (List.length all + 1 - cap)%nat with O by lia.
    reflexivity.
Qed.

End Bounded.

Lemma update_chart_plot_x d w :
  plot_x (update_chart d w) = push_bounded history_limit (plot_x w) (snd d).
Proof. reflexivity. Qed.

Lemma update_chart_plot_y d w :
  List.length (plot_x w) = List.length (plot_y w) ->
  plot_y (update_chart d w) = push_bounded history_limit (plot_y w) (fst d).
Proof. intros E. unfold update_chart, push_bounded. cbn [plot_y]. rewrite E. reflexivity. Qed.

Lemma pushes_snoc ds d w : pushes (ds ++ [d]) w = update_chart d (pushes ds w).
Proof. unfold pushes. rewrite fold_left_app. reflexivity. Qed.

Lemma history_limit_pos : (0 < history_limit)%nat.
Proof. unfold history_limit. lia. Qed.

(** Both plot lists hold the last [history_limit] samples pushed. *)
Lemma pushes_retained (w : window) (ds : list (pyfloat * pyfloat)) :
  plot_x w = [] -> plot_y w = [] ->
  plot_x (pushes ds w) = skipn (List.length ds - history_limit) (map snd ds) /\
  plot_y (pushes ds w) = skipn (List.length ds - history_limit) (map fst ds).
Proof.
  intros Hx Hy. induction ds as [|d ds IH] using rev_ind.
  - simpl. auto.
  - destruct IH as [IHx IHy].
    rewrite pushes_snoc, update_chart_plot_x, update_chart_plot_y.
    + rewrite IHx, IHy, !map_app. simpl map.
      pose proof (push_bounded_skipn history_limit history_limit_pos
                    (map snd ds) (snd d)) as Px.
      pose proof (push_bounded_skipn history_limit history_limit_pos
                    (map fst ds) (fst d)) as Py.
      rewrite !length_app, !length_map in Px, Py.
      rewrite length_app. auto.
    + rewrite IHx, IHy, !length_skipn, !length_map. reflexivity.
Qed.

(** The two plot lists keep the same length. *)
Lemma history_buffer_retained_len (ds : list (pyfloat * pyfloat)) :
  List.length (plot_x (pushes ds window_init)) = Nat.min (List.length ds) history_limit /\
  List.length (plot_y (pushes ds window_init)) = Nat.min (List.length ds) history_limit.
Proof.
  destruct (pushes_retained window_init ds eq_refl eq_refl) as [Ex Ey].
  rewrite Ex, Ey, !length_skipn, !length_map. lia.
Qed.

(** C2. Starting from empty plot lists, after any sequence of
    [update_chart] calls each list holds min(pushes, 4000) entries, namely
    the most recent ones in the order they were pushed, so that the oldest
    entry kept is the (pushes - 4000 + 1)-th pushed; a push onto a full
    list drops the head and appends the new entry at the end. *)
Theorem history_buffer_fifo (w : window) (ds : list (pyfloat * pyfloat)) :
  plot_x w = [] -> plot_y w = [] ->
  let w' := pushes ds w in
  List.length (plot_y w') = Nat.min (List.length ds) 4000 /\
  List.length (plot_x w') = Nat.min (List.length ds) 4000 /\
  plot_y w' = skipn (List.length ds - 4000) (map fst ds) /\
  plot_x w' = skipn (List.length ds - 4000) (map snd ds) /\
  ((4000 < List.length ds)%nat ->
   hd_error (plot_y w') = nth_error (map fst ds) (List.length ds - 4000)) /\
  (forall d, List.length (plot_y w') = 4000%nat ->
     plot_y (update_chart d w') = (tl (plot_y w') ++ [fst d])%list /\
     plot_x (update_chart d w') = (tl (plot_x w') ++ [snd d])%list).
Proof.
  intros Hx Hy w'. change 4000%nat with history_limit.
  destruct (pushes_retained w ds Hx Hy) as [Ex Ey]. fold w' in Ex, Ey.
  assert (Lx : List.length (plot_x w') = Nat.min (List.length ds) history_limit)
    by (rewrite Ex, length_skipn, length_map; lia).
  assert (Ly : List.length (plot_y w') = Nat.min (List.length ds) history_limit)
    by (rewrite Ey, length_skipn, length_map; lia).
  repeat split; auto.
  - intros _. rewrite Ey. apply hd_error_skipn.
  - rewrite update_chart_plot_y by congruence.
    unfold push_bounded. rewrite H, Nat.eqb_refl. reflexivity.
  - rewrite update_chart_plot_x. unfold push_bounded.
    replace (List.length (plot_x w')) with history_limit by congruence.
    rewrite Nat.eqb_refl. reflexivity.
Qed.

Lemma stdev_temp_update_chart d w :
  stdev_temp (update_chart d w) =
  if (2 <? List.length (plot_y (update_chart d w)))%nat
  then StdevRound4 (Statistics.stdev (plot_y (update_chart d w)))
  else stdev_temp w.
Proof. reflexivity. Qed.

(** The standard deviation label after the pushes [ds]. *)
Lemma stdev_label_pushes (ds : list (pyfloat * pyfloat)) :
  stdev_temp (pushes ds window_init) =
  if (List.length ds <? 3)%nat then StdevInitial
  else StdevRound4 (Statistics.stdev (plot_y (pushes ds window_init))).
Proof.
  induction ds as [|d ds IH] using rev_ind; [reflexivity|].
  destruct (history_buffer_retained_len (ds ++ [d])) as [_ L].
  rewrite pushes_snoc, stdev_temp_update_chart, <- pushes_snoc, L, IH.
  rewrite length_app. simpl List.length. unfold history_limit.
  destruct (Nat.ltb_spec (List.length ds + 1) 3) as [S3|S3].
  - replace (2 <? Nat.min (List.length ds + 1) 4000)%nat with false
      by (symmetry; apply Nat.ltb_ge; lia).
    replace (List.length ds <? 3)%nat with true
      by (symmetry; apply Nat.ltb_lt; lia). reflexivity.
  - replace (2 <? Nat.min (List.length ds + 1) 4000)%nat with true
      by (symmetry; apply Nat.ltb_lt; lia). reflexivity.
Qed.


(** ** Emission and write in the trace of the loop *)

Lemma paired_app t1 t2 : paired t1 -> paired t2 -> paired (t1 ++ t2).
Proof.
  intros H1 H2. induction H1; simpl; auto.
  - constructor. assumption.
  - constructor; assumption.
Qed.

Lemma paired_handler : paired handler.
Proof. repeat (constructor; try reflexivity). Qed.

Lemma paired_try_block e : paired (try_block e).
Proof.
  unfold try_block. apply paired_other; [reflexivity|].
  destruct (read e) as [|raw]; [apply paired_handler|].
  destruct (parse_raw raw) as [v| |].
  - apply (paired_emit (v, clock e) (gmt e)).
    destruct (write_ok e); [|apply paired_handler].
    repeat (constructor; try reflexivity).
  - repeat (constructor; try reflexivity).
  - apply paired_handler.
Qed.

Lemma paired_loop_step e a : paired (trace a) -> paired (trace (loop_step e a)).
Proof.
  intros H. unfold loop_step, loop_body, loop_exit.
  destruct (status a); auto.
  destruct (measuring a).
  - destruct (open_ok e); cbn [trace]; apply paired_app; auto.
    + do 2 (apply paired_other; [reflexivity|]). apply paired_try_block.
    + repeat (constructor; try reflexivity).
  - destruct (f_bound a); cbn [trace]; auto.
    apply paired_app; auto. repeat (constructor; try reflexivity).
Qed.

Lemma paired_run ts a : paired (trace a) -> paired (trace (run ts a)).
Proof.
  revert a. induction ts as [|t ts IH]; intros a H; [exact H|].
  simpl. apply IH. destruct t; [exact H | apply paired_loop_step; exact H].
Qed.

Lemma paired_emitted_then_written tr : paired tr -> emitted_then_written tr.
Proof.
  intros H. induction H; intros pre d' post E.
  - destruct pre; discriminate.
  - destruct pre as [|x pre]; simpl in E.
    + injection E as <- <-. eauto.
    + injection E as <- E. destruct pre as [|y pre]; simpl in E.
      * discriminate.
      * injection E as <- E. eapply IHpaired. exact E.
  - destruct pre as [|x pre]; simpl in E.
    + injection E as -> _. discriminate.
    + injection E as <- E. eapply IHpaired. exact E.
Qed.

Lemma paired_written_only_emitted tr : paired tr -> written_only_emitted tr.
Proof.
  intros H. induction H; intros pre line ok' post E.
  - destruct pre; discriminate.
  - destruct pre as [|x pre]; simpl in E; [discriminate|].
    injection E as <- E. destruct pre as [|y pre]; simpl in E.
    + injection E as <- <- <-. exists [], d, tm. auto.
    + injection E as <- E. destruct (IHpaired _ _ _ _ E) as (pre' & d' & tm' & -> & ->).
      exists (EvEmit d ::
              EvWrite (log_record (fst d) (snd d) (Time.strftime tm)) ok :: pre'),
             d', tm'.
      auto.
  - destruct pre as [|x pre]; simpl in E.
    + injection E as -> _. discriminate.
    + injection E as <- E. destruct (IHpaired _ _ _ _ E) as (pre' & d' & tm' & -> & ->).
      exists (ev :: pre'), d', tm'. auto.
Qed.

(** C1 (as the code has it). In every run of the loop each emission on
    [new_data] is followed at once, in the same pass, by the [f.write] call
    for the record of that same sample (its value, its clock reading and a
    [gmtime] stamp), and every [f.write] call comes right after the
    emission of the sample it records: the loop emits first and writes
    second. *)
Theorem emit_precedes_write (ts : list tick) (folder : string) (now : pyfloat) :
  let tr := trace (run ts (acquirer_init folder now)) in
  emitted_then_written tr /\ written_only_emitted tr.
Proof.
  intros tr.
  assert (P : paired tr) by (apply paired_run; constructor).
  split; [apply paired_emitted_then_written | apply paired_written_only_emitted];
    exact P.
Qed.

(** ** The text scanned by the loop *)

Lemma contains_app c s1 s2 :
  Py.contains c (s1 ++ s2) = Py.contains c s1 || Py.contains c s2.
Proof.
  induction s1 as [|a s1 IH]; simpl; [reflexivity|].
  destruct (Ascii.eqb a c); [reflexivity | exact IH].
Qed.

(** The repr of a byte other than the marker holds no marker: escapes are
    written with a backslash, lower-case letters and lower-case hex. *)
Lemma escape_byte_no_marker q b :
  q = Py.squote \/ q = Py.dquote -> b <> marker_byte ->
  Py.contains marker (Py.escape_byte q b) = false.
Proof.
  intros [-> | ->] Hb; destruct b; try reflexivity; exfalso; apply Hb; reflexivity.
Qed.

Lemma repr_quote_cases raw :
  Py.repr_quote raw = Py.squote \/ Py.repr_quote raw = Py.dquote.
Proof. unfold Py.repr_quote. destruct (_ && _); auto. Qed.

Lemma escape_all_no_marker q raw :
  q = Py.squote \/ q = Py.dquote -> ~ In marker_byte raw ->
  Py.contains marker (Py.escape_all q raw) = false.
Proof.
  intros Hq. induction raw as [|b raw IH]; intros Hn.
  - reflexivity.
  - simpl. rewrite contains_app, escape_byte_no_marker, IH; auto.
    + intros H. apply Hn. right. exact H.
    + intros H. apply Hn. left. auto.
Qed.

Lemma str_bytes_no_marker raw :
  ~ In marker_byte raw -> Py.contains marker (Py.str_bytes raw) = false.
Proof.
  intros Hn. unfold Py.str_bytes.
  pose proof (escape_all_no_marker _ raw (repr_quote_cases raw) Hn) as H.
  destruct (repr_quote_cases raw) as [E | E]; rewrite E in *; simpl;
    rewrite contains_app, H; reflexivity.
Qed.

(** C8. A line read from the device that holds no marker byte is scanned
    as a text without marker: the parser takes the [else] branch, and the
    pass of the loop emits nothing and writes nothing; it prints its
    message, sleeps a quarter of a second and goes on looping. *)
Theorem no_marker_no_sample (e : cycle_env) (raw : list byte) (a : acquirer) :
  read e = ReadBytes raw -> ~ In marker_byte raw ->
  parse_raw raw = NoMarker /\
  try_block e =
    [EvReadline; EvPrint "No data in string, lets move on"; EvSleep 250] /\
  (forall ev, In ev (try_block e) -> is_emit_or_write ev = false) /\
  (status a = Looping -> measuring a = true -> open_ok e = true ->
   status (loop_step e a) = Looping /\
   trace (loop_step e a) =
     (trace a ++
      [EvOpen (file_path a); EvPrint "Data acquiring"; EvReadline;
       EvPrint "No data in string, lets move on"; EvSleep 250])%list).
Proof.
  intros Hr Hn.
  assert (P : parse_raw raw = NoMarker).
  { unfold parse_raw, parse. rewrite str_bytes_no_marker; auto. }
  assert (T : try_block e =
    [EvReadline; EvPrint "No data in string, lets move on"; EvSleep 250]).
  { unfold try_block. rewrite Hr, P. reflexivity. }
  repeat split; auto.
  - rewrite T. intros ev [<- | [<- | [<- | []]]]; reflexivity.
  - unfold loop_step, loop_body. rewrite H, H0, H1. reflexivity.
  - unfold loop_step, loop_body. rewrite H, H0, H1. cbn [trace]. rewrite T.
    reflexivity.
Qed.

(** C5 (as the code has it). A line with the marker whose slice [float]
    refuses yields no sample and is never fatal, but the [ValueError] is
    caught by the one handler of the loop: the pass prints the device error
    message and sleeps ten seconds, exactly as when [readline] raises, and
    then the loop goes on. *)
Theorem malformed_number_backs_off (e : cycle_env) (raw : list byte) (a : acquirer) :
  read e = ReadBytes raw ->
  Py.contains marker (Py.str_bytes raw) = true ->
  PyFloat.float (field (Py.str_bytes raw)) = None ->
  parse_raw raw = MalformedNumber /\
  try_block e =
    [EvReadline; EvPrint "Error connecting to the serial device"; EvSleep 10000] /\
  try_block e =
    try_block (mk_cycle_env (open_ok e) ReadRaises (clock e) (gmt e) (write_ok e)) /\
  (forall ev, In ev (try_block e) -> is_emit_or_write ev = false) /\
  (status a = Looping -> measuring a = true -> open_ok e = true ->
   status (loop_step e a) = Looping /\
   measuring (loop_step e a) = true /\
   trace (loop_step e a) = (trace a ++ backoff_pass (file_path a))%list).
Proof.
  intros Hr Hc Hf.
  assert (P : parse_raw raw = MalformedNumber).
  { unfold parse_raw, parse. rewrite Hc, Hf. reflexivity. }
  assert (T : try_block e = EvReadline :: handler).
  { unfold try_block. rewrite Hr, P. reflexivity. }
  repeat split; auto.
  - rewrite T. intros ev [<- | [<- | [<- | []]]]; reflexivity.
  - unfold loop_step, loop_body. rewrite H, H0, H1. reflexivity.
  - unfold loop_step, loop_body. rewrite H, H0, H1. reflexivity.
  - unfold loop_step, loop_body. rewrite H, H0, H1. cbn [trace]. rewrite T.
    reflexivity.
Qed.

(** ** The loop under device errors and stop requests *)



Lemma try_block_never_finishes e :
  ~ In EvFinished (try_block e) /\ ~ In EvClose (try_block e).
Proof.
  unfold try_block, handler.
  destruct (read e) as [|raw]; [|destruct (parse_raw raw); [destruct (write_ok e)| |]];
    simpl; intuition discriminate.
Qed.





(** ** The acquire button *)

Lemma loop_step_measuring e a : measuring (loop_step e a) = measuring a.
Proof.
  unfold loop_step, loop_body, loop_exit.
  destruct (status a); auto.
  destruct (measuring a) eqn:E; [destruct (open_ok e) | destruct (f_bound a)];
    simpl; auto.
Qed.

Lemma flags_update_nth i e (l : list acquirer) :
  map measuring (update_nth i (loop_step e) l) = map measuring l.
Proof.
  revert i. induction l as [|a l IH]; intros [|i]; simpl; auto.
  - rewrite loop_step_measuring. reflexivity.
  - rewrite IH. reflexivity.
Qed.

Lemma stop_last_snoc (l : list acquirer) a :
  stop_last (l ++ [a]) = (l ++ [request_stop a])%list.
Proof.
  induction l as [|x l IH]; [reflexivity|].
  simpl. rewrite IH. destruct (l ++ [a])%list eqn:E; [|reflexivity].
  destruct l; discriminate.
Qed.

Lemma flags_stop_last (l : list acquirer) k :
  map measuring l = (repeat false k ++ [true])%list ->
  map measuring (stop_last l) = repeat false (S k).
Proof.
  intros H. destruct l as [|x l] using rev_ind.
  - destruct k; discriminate.
  - rewrite stop_last_snoc, !map_app in *. simpl in *.
    apply app_inj_tail in H as [-> _].
    rewrite repeat_cons. reflexivity.
Qed.

Lemma length_stop_last (l : list acquirer) :
  List.length (stop_last l) = List.length l.
Proof.
  induction l as [|x l IH]; [reflexivity|].
  simpl. destruct l; [reflexivity|]. simpl in *. rewrite IH. reflexivity.
Qed.

Lemma active_flags w : active w = List.length (filter (fun b : bool => b) (flags w)).
Proof.
  unfold active, flags. induction (threads w) as [|a l IH]; [reflexivity|].
  simpl. destruct (measuring a); simpl; rewrite IH; reflexivity.
Qed.

Lemma filter_repeat_false k : filter (fun b : bool => b) (repeat false k) = [].
Proof. induction k; simpl; auto. Qed.

Lemma window_inv_active w :
  window_inv w -> active w = (if w_measuring w then 1 else 0)%nat.
Proof.
  intros [[k Hk] _]. rewrite active_flags, Hk, filter_app, filter_repeat_false.
  destruct (w_measuring w); reflexivity.
Qed.

Lemma window_inv_init : window_inv window_init.
Proof. split; [exists O; reflexivity | discriminate]. Qed.

Lemma window_inv_acquire now opens w :
  window_inv w -> window_inv (fst (acquire_data now opens w)).
Proof.
  intros [[k Hk] Hs]. unfold acquire_data.
  destruct (w_measuring w) eqn:Em; simpl.
  - destruct (Hs eq_refl) as [Es _]. unfold toggle_port, with_ser, window_inv, flags.
    cbn [ser]. rewrite Es. cbn [threads w_measuring ser connect_enabled].
    split; [|discriminate]. exists (S k).
    rewrite (flags_stop_last _ k Hk), app_nil_r. reflexivity.
  - destruct (ser w) as [[|]|] eqn:Es;
      try destruct (0 <? String.length (folder_text w))%nat; simpl;
      unfold window_inv, flags; cbn [threads w_measuring ser connect_enabled];
      try rewrite Em; try (split; [exists k; exact Hk | discriminate]).
    split; [|auto]. exists k. rewrite map_app. unfold flags in Hk.
    rewrite Hk, app_nil_r. reflexivity.
Qed.

Lemma window_inv_step w ev : window_inv w -> window_inv (app_step w ev).
Proof.
  intros H. destruct ev as [now opens | opens | p ex | i e | d]; simpl.
  - apply window_inv_acquire. exact H.
  - destruct (connect_enabled w) eqn:Ec; [|exact H]. destruct H as [Hk Hs].
    unfold toggle_port, with_ser.
    destruct (ser w); (split; [exact Hk|]); cbn [w_measuring];
      intros Hm; destruct (Hs Hm); congruence.
  - destruct (browse_enabled w); [|exact H]. unfold browse_file_folder.
    destruct ex; exact H.
  - destruct H as [[k Hk] Hs]. split; [|exact Hs].
    exists k. unfold flags, with_threads. cbn [threads w_measuring].
    rewrite flags_update_nth. exact Hk.
  - exact H.
Qed.

Lemma window_inv_run evs : forall w, window_inv w -> window_inv (app_run evs w).
Proof.
  induction evs as [|ev evs IH]; intros w H; [exact H|].
  simpl. apply IH, window_inv_step, H.
Qed.

(** C6 (as the code has it). The acquire button is a toggle. In every
    state the application reaches at most one acquirer has its flag set,
    and one has exactly while the window is measuring. A call of
    [acquire_data] made while measuring raises nothing: it returns
    normally, starts no new acquirer, clears the flag of the running one
    and of the window, and closes the port. *)
Theorem acquire_data_toggles (evs : list app_event) (now : pyfloat) (opens : bool) :
  let w := app_run evs window_init in
  let w' := fst (acquire_data now opens w) in
  active w = (if w_measuring w then 1 else 0)%nat /\
  (active w' <= 1)%nat /\
  (w_measuring w = true ->
     snd (acquire_data now opens w) = Returned [] /\
     w_measuring w' = false /\
     List.length (threads w') = List.length (threads w) /\
     active w' = 0%nat /\
     ser w' = None).
Proof.
  intros w w'.
  assert (I : window_inv w) by apply window_inv_run, window_inv_init.
  assert (I' : window_inv w') by apply window_inv_acquire, I.
  split; [apply window_inv_active, I|]. split.
  - rewrite (window_inv_active w' I'). destruct (w_measuring w'); lia.
  - intros Hm. destruct I as [_ Hs]. destruct (Hs Hm) as [Es _].
    assert (Ew : w_measuring w' = false).
    { unfold w', acquire_data. rewrite Hm. simpl. unfold toggle_port.
      cbn [ser]. rewrite Es. reflexivity. }
    repeat split.
    + unfold acquire_data. rewrite Hm. reflexivity.
    + exact Ew.
    + unfold w', acquire_data. rewrite Hm. simpl. unfold toggle_port.
      cbn [ser]. rewrite Es. simpl. apply length_stop_last.
    + rewrite (window_inv_active w' I'), Ew. reflexivity.
    + unfold w', acquire_data. rewrite Hm. simpl. unfold toggle_port.
      cbn [ser]. rewrite Es. reflexivity.
Qed.

(** ** Marker search and slice *)

Lemma first_occurrence_find c : forall s i k,
  String.get i s = Some c ->
  (forall j, (j < i)%nat -> String.get j s <> Some c) ->
  Py.contains c s = true /\ Py.find_from c s k = k + Z.of_nat i.
Proof.
  induction s as [|a s IH]; intros i k Hg Hb; [destruct i; discriminate|].
  destruct i as [|i]; simpl in *.
  - injection Hg as ->. rewrite Ascii.eqb_refl. split; [reflexivity | lia].
  - destruct (Ascii.eqb_spec a c) as [->|Hn].
    + exfalso. apply (Hb O); [lia | reflexivity].
    + destruct (IH i (k + 1) Hg) as [C F].
      * intros j Hj. apply (Hb (S j)). lia.
      * split; [exact C | rewrite F; lia].
Qed.

Lemma first_marker_find text i :
  first_marker text i ->
  Py.contains marker text = true /\ Py.find marker text = Z.of_nat i.
Proof.
  intros [Hg Hb]. destruct (first_occurrence_find marker text i 0 Hg Hb) as [C F].
  split; [exact C | exact F].
Qed.

(** A text that holds the marker has a first one, where [find] says. *)
Lemma contains_first c : forall s,
  Py.contains c s = true ->
  exists i, String.get i s = Some c /\
            (forall j, (j < i)%nat -> String.get j s <> Some c).
Proof.
  induction s as [|a s IH]; intros H; [discriminate|]. simpl in H.
  destruct (Ascii.eqb_spec a c) as [->|Hn].
  - exists O. split; [reflexivity | intros j Hj; lia].
  - destruct (IH H) as (i & Hg & Hb). exists (S i). split; [exact Hg|].
    intros [|j] Hj; simpl.
    + congruence.
    + apply Hb. lia.
Qed.

Lemma substring_nil n m : String.substring n m EmptyString = EmptyString.
Proof. destruct n, m; reflexivity. Qed.

Lemma substring_zero n s : String.substring n 0 s = EmptyString.
Proof.
  revert n. induction s as [|a s IH]; intros [|n]; simpl; auto.
Qed.

Lemma substring_beyond : forall s n m,
  (String.length s <= n)%nat -> String.substring n m s = EmptyString.
Proof.
  induction s as [|a s IH]; intros n m H; [apply substring_nil|].
  destruct n as [|n]; simpl in *; [lia|]. apply IH. lia.
Qed.

(** [substring] clips at the end of the string, as a Python slice does. *)
Lemma substring_clip : forall s n m,
  String.substring n m s =
  String.substring n (Nat.min m (String.length s - n)) s.
Proof.
  induction s as [|a s IH]; intros n m; [rewrite !substring_nil; reflexivity|].
  destruct n as [|n]; simpl.
  - destruct m as [|m]; simpl; [reflexivity|].
    f_equal. rewrite (IH O m). rewrite Nat.sub_0_r. reflexivity.
  - apply IH.
Qed.

Lemma length_substring : forall s n m,
  String.length (String.substring n m s) = Nat.min m (String.length s - n).
Proof.
  induction s as [|a s IH]; intros n m; [rewrite substring_nil; simpl; lia|].
  destruct n as [|n]; simpl.
  - destruct m as [|m]; simpl; [reflexivity|]. rewrite IH. lia.
  - apply IH.
Qed.

(** With both bounds non-negative, [s[n:n+m]] is [substring n m s]. *)
Lemma slice_substring s n m :
  Py.slice s (Z.of_nat n) (Z.of_nat n + Z.of_nat m) = String.substring n m s.
Proof.
  unfold Py.slice, Py.clamp, Py.len.
  destruct (Z.ltb_spec (Z.of_nat n) 0) as [L|_]; [lia|].
  destruct (Z.ltb_spec (Z.of_nat n + Z.of_nat m) 0) as [L|_]; [lia|].
  destruct (Z.ltb_spec (Z.min (Z.of_nat n) (Z.of_nat (String.length s)))
              (Z.min (Z.of_nat n + Z.of_nat m) (Z.of_nat (String.length s)))) as [L|L].
  - rewrite (substring_clip s n m).
    replace (Z.to_nat (Z.min (Z.of_nat n) (Z.of_nat (String.length s)))) with n by lia.
    f_equal. lia.
  - destruct (Nat.le_gt_cases (String.length s) n) as [G|G].
    + rewrite substring_beyond; auto.
    + assert (m = O) by lia. subst m. rewrite substring_zero. reflexivity.
Qed.

Lemma field_first_marker text i :
  first_marker text i -> field text = String.substring (i + 2) 7 text.
Proof.
  intros H. destruct (first_marker_find text i H) as [_ F].
  unfold field. rewrite F, <- (slice_substring text (i + 2) 7). f_equal; lia.
Qed.

(** What the [try] block does with a line the parser accepts. *)
Lemma try_block_parsed e raw v :
  read e = ReadBytes raw -> parse_raw raw = Parsed v ->
  try_block e =
    EvReadline :: EvEmit (v, clock e) ::
    EvWrite (log_record v (clock e) (Time.strftime (gmt e))) (write_ok e) ::
    (if write_ok e then [EvSleep 250] else handler).
Proof. intros Hr Hp. unfold try_block. rewrite Hr, Hp. reflexivity. Qed.

Lemma parse_first_marker (text : string) (i : nat) (v : pyfloat) :
  first_marker text i ->
  PyFloat.float (String.substring (i + 2) 7 text) = Some v ->
  parse text = Parsed v.
Proof.
  intros Hm Hf. unfold parse. destruct (first_marker_find text i Hm) as [C _].
  rewrite C, (field_first_marker text i Hm), Hf. reflexivity.
Qed.

(** C3 (as the code has it). When the first marker of the scanned text is
    at index [i] and [float] accepts the seven characters at [i+2 .. i+8],
    the parser yields a sample whose value is the number [float] reads
    from that substring, and the pass of the loop emits that value. *)
Theorem first_marker_field_parsed (text : string) (i : nat) (v : pyfloat) :
  first_marker text i ->
  PyFloat.float (String.substring (i + 2) 7 text) = Some v ->
  parse text = Parsed v /\
  (forall e raw, read e = ReadBytes raw -> Py.str_bytes raw = text ->
     In (EvEmit (v, clock e)) (try_block e)).
Proof.
  intros Hm Hf. pose proof (parse_first_marker text i v Hm Hf) as P.
  split; [exact P|]. intros e raw Hr Ht.
  rewrite (try_block_parsed e raw v Hr); [simpl; auto|].
  unfold parse_raw. rewrite Ht. exact P.
Qed.

(** ** The log record *)

Lemma digit_cases d :
  In (Time.digit d) ["0"; "1"; "2"; "3"; "4"; "5"; "6"; "7"; "8"; "9"]%char /\
  PyFloat.digit_val (Time.digit d) = d mod 10.
Proof.
  unfold Time.digit. pose proof (Z.mod_pos_bound d 10 eq_refl) as B.
  assert (C : d mod 10 = 0 \/ d mod 10 = 1 \/ d mod 10 = 2 \/ d mod 10 = 3 \/
              d mod 10 = 4 \/ d mod 10 = 5 \/ d mod 10 = 6 \/ d mod 10 = 7 \/
              d mod 10 = 8 \/ d mod 10 = 9) by lia.
  repeat (destruct C as [C | C]); rewrite C; simpl; split; auto 11; reflexivity.
Qed.

Lemma digit_is_digit d : PyFloat.is_digit (Time.digit d) = true.
Proof.
  destruct (digit_cases d) as [H _]. simpl in H.
  repeat (destruct H as [<- | H]; [reflexivity|]). contradiction.
Qed.

Lemma digit_not c d :
  PyFloat.is_digit c = false -> Ascii.eqb (Time.digit d) c = false.
Proof.
  intros H. destruct (Ascii.eqb_spec (Time.digit d) c) as [<-|]; [|reflexivity].
  rewrite digit_is_digit in H. discriminate.
Qed.

Lemma two_digits_value n :
  0 <= n <= 99 -> Time.two (Time.digit (n / 10)) (Time.digit n) = n.
Proof.
  intros H. unfold Time.two. rewrite !(proj2 (digit_cases _)).
  Z.to_euclidean_division_equations. lia.
Qed.

Lemma four_digits_value n :
  0 <= n <= 9999 ->
  Time.four (Time.digit (n / 1000)) (Time.digit (n / 100))
            (Time.digit (n / 10)) (Time.digit n) = n.
Proof.
  intros H. unfold Time.four. rewrite !(proj2 (digit_cases _)).
  assert (E1 : n / 100 = n / 10 / 10) by (rewrite Zdiv_Zdiv by lia; reflexivity).
  assert (E2 : n / 1000 = n / 100 / 10) by (rewrite Zdiv_Zdiv by lia; reflexivity).
  rewrite E2, E1. Z.to_euclidean_division_equations. lia.
Qed.

Lemma strftime_chars tm :
  list_ascii_of_string (Time.strftime tm) =
  [Time.digit (tm_mday tm / 10); Time.digit (tm_mday tm); "/";
   Time.digit (tm_mon tm / 10); Time.digit (tm_mon tm); "/";
   Time.digit (tm_year tm / 1000); Time.digit (tm_year tm / 100);
   Time.digit (tm_year tm / 10); Time.digit (tm_year tm); " ";
   Time.digit (tm_hour tm / 10); Time.digit (tm_hour tm); ":";
   Time.digit (tm_min tm / 10); Time.digit (tm_min tm); ":";
   Time.digit (tm_sec tm / 10); Time.digit (tm_sec tm);
   " "; "+"; "0"; "0"; "0"; "0"]%char.
Proof. reflexivity. Qed.

(** The stamp reads back to the time it was made from. *)
Lemma read_stamp_strftime tm :
  valid_struct_time tm -> Time.read_stamp (Time.strftime tm) = Some tm.
Proof.
  intros (Hy & Hmo & Hd & Hh & Hmi & Hs).
  unfold Time.read_stamp. rewrite strftime_chars.
  cbn [forallb]. rewrite !digit_is_digit. cbn [andb].
  replace (String.eqb _ "// :: +0000") with true by reflexivity.
  rewrite !two_digits_value, four_digits_value by lia.
  destruct tm; reflexivity.
Qed.

Lemma contains_strftime c tm :
  PyFloat.is_digit c = false ->
  Py.contains c (Time.strftime tm) = Py.contains c "// :: +0000".
Proof.
  intros H.
  rewrite <- (string_of_list_ascii_of_string (Time.strftime tm)), strftime_chars.
  cbn [string_of_list_ascii Py.contains]. rewrite !(digit_not c) by exact H.
  assert (Z0 : Ascii.eqb "0" c = false).
  { destruct (Ascii.eqb_spec "0"%char c) as [<-|]; [discriminate | reflexivity]. }
  rewrite !Z0.
  destruct (Ascii.eqb "/" c), (Ascii.eqb " " c), (Ascii.eqb ":" c), (Ascii.eqb "+" c);
    reflexivity.
Qed.

Lemma split_on_none c s : Py.contains c s = false -> split_on c s = [s].
Proof.
  induction s as [|a s IH]; intros H; [reflexivity|]. simpl in *.
  destruct (Ascii.eqb a c); [discriminate|]. rewrite (IH H). reflexivity.
Qed.

Lemma split_on_app c s1 s2 :
  Py.contains c s1 = false ->
  split_on c (s1 ++ String c s2) = s1 :: split_on c s2.
Proof.
  induction s1 as [|a s1 IH]; intros H; simpl in *.
  - rewrite Ascii.eqb_refl. reflexivity.
  - destruct (Ascii.eqb a c); [discriminate|]. rewrite (IH H). reflexivity.
Qed.

Lemma plain_no_comma s : plain s = true -> Py.contains ","%char s = false.
Proof.
  unfold plain. intros H. apply andb_prop in H as [H _].
  apply negb_true_iff. exact H.
Qed.

Lemma plain_no_newline s : plain s = true -> Py.contains "010"%char s = false.
Proof.
  unfold plain. intros H. apply andb_prop in H as [_ H].
  apply negb_true_iff. exact H.
Qed.

Lemma append_assoc_str (s1 s2 s3 : string) : (s1 ++ s2) ++ s3 = s1 ++ (s2 ++ s3).
Proof. induction s1 as [|a s1 IH]; simpl; [reflexivity | rewrite IH; reflexivity]. Qed.

Lemma append_empty_r (s : string) : s ++ EmptyString = s.
Proof. induction s as [|a s IH]; simpl; [reflexivity | rewrite IH; reflexivity]. Qed.

(** C9. The one write of an accepting pass puts down the value, the
    [time.time()] reading and the [gmtime] stamp, separated by a comma and
    a space and closed by a line feed: split at the commas the record has
    exactly three fields, it is a single line, and its last field is the
    stamp DD/MM/YYYY HH:MM:SS +0000, which reads back to the broken-down
    UTC time it was made from. The texts of the two floats are Python's
    [repr], which holds neither a comma nor a line feed. *)
Theorem log_record_format (e : cycle_env) (raw : list byte) (v : pyfloat)
  (float_text : pyfloat -> string) :
  read e = ReadBytes raw -> parse_raw raw = Parsed v ->
  valid_struct_time (gmt e) ->
  (forall x, plain (float_text x) = true) ->
  let stamp := Time.strftime (gmt e) in
  let line := log_record v (clock e) stamp in
  let text := render float_text line in
  (forall l ok, In (EvWrite l ok) (try_block e) <-> l = line /\ ok = write_ok e) /\
  Time.read_stamp stamp = Some (gmt e) /\
  text = float_text v ++ ", " ++ float_text (clock e) ++ ", " ++ stamp ++ newline /\
  split_on "," text =
    [float_text v; " " ++ float_text (clock e); " " ++ stamp ++ newline] /\
  split_on "010" text =
    [float_text v ++ ", " ++ float_text (clock e) ++ ", " ++ stamp; EmptyString].
Proof.
  intros Hr Hp Hv Hplain stamp line text.
  assert (Et : text =
    float_text v ++ ", " ++ float_text (clock e) ++ ", " ++ stamp ++ newline).
  { unfold text, line, log_record. cbn [render]. rewrite append_empty_r. reflexivity. }
  split; [|split; [|split; [|split]]].
  - intros l ok. rewrite (try_block_parsed e raw v Hr Hp). fold stamp. fold line.
    split.
    + intros [H | [H | [H | H]]]; try discriminate.
      * injection H as <- <-. auto.
      * exfalso. unfold handler in H. destruct (write_ok e); absent H.
    + intros [-> ->]. simpl. auto.
  - apply read_stamp_strftime. exact Hv.
  - exact Et.
  - rewrite Et.
    change (float_text v ++ ", " ++ float_text (clock e) ++ ", " ++ stamp ++ newline)
      with (float_text v ++
            String "," ((" " ++ float_text (clock e)) ++
                        String "," (" " ++ stamp ++ newline))).
    rewrite split_on_app by (apply plain_no_comma, Hplain).
    rewrite split_on_app
      by (simpl; apply plain_no_comma, Hplain).
    rewrite split_on_none; [reflexivity|].
    rewrite !contains_app. unfold stamp.
    rewrite contains_strftime by reflexivity. reflexivity.
  - rewrite Et.
    replace (float_text v ++ ", " ++ float_text (clock e) ++ ", " ++ stamp ++ newline)
      with ((float_text v ++ ", " ++ float_text (clock e) ++ ", " ++ stamp) ++
            String "010" EmptyString)
      by (rewrite !append_assoc_str; reflexivity).
    rewrite split_on_app; [reflexivity|].
    rewrite !contains_app.
    rewrite !(plain_no_newline _ (Hplain _)). unfold stamp.
    rewrite contains_strftime by reflexivity. reflexivity.
Qed.

(** ** What [float] accepts *)

Lemma every_impl (p q : ascii -> bool) s :
  (forall c, p c = true -> q c = true) -> every p s = true -> every q s = true.
Proof.
  intros H. induction s as [|a s IH]; simpl; [auto|].
  intros E. apply andb_prop in E as [E1 E2]. rewrite (H a E1), (IH E2). reflexivity.
Qed.

Lemma every_get p : forall s i c,
  every p s = true -> String.get i s = Some c -> p c = true.
Proof.
  induction s as [|a s IH]; intros i c E G; [destruct i; discriminate|].
  simpl in E. apply andb_prop in E as [E1 E2].
  destruct i as [|i]; simpl in G.
  - injection G as <-. exact E1.
  - apply (IH i c E2 G).
Qed.

Lemma every_lower p s :
  every p (PyFloat.lower_all s) = every (fun c => p (PyFloat.lower c)) s.
Proof. induction s as [|a s IH]; simpl; [reflexivity | rewrite IH; reflexivity]. Qed.

Lemma drop_underscores_every p : forall s prev s0,
  PyFloat.drop_underscores prev s = Some s0 ->
  p "_"%char = true -> every p s0 = true -> every p s = true.
Proof.
  induction s as [|c s IH]; intros prev s0 H Hu E; [reflexivity|].
  simpl in H. destruct (PyFloat.is_underscore c) eqn:U.
  - unfold PyFloat.is_underscore in U. apply Ascii.eqb_eq in U. subst c.
    simpl. rewrite Hu. simpl.
    destruct prev as [pc|]; [|discriminate].
    destruct (PyFloat.is_digit pc); [|discriminate].
    apply (IH _ _ H Hu E).
  - destruct (_ && _); [discriminate|].
    destruct (PyFloat.drop_underscores (Some c) s) as [s1|] eqn:D; [|discriminate].
    injection H as <-. simpl in E. apply andb_prop in E as [E1 E2].
    simpl. rewrite E1. simpl. apply (IH _ _ D Hu E2).
Qed.

Lemma lstrip_every p s :
  (forall c, PyFloat.is_space c = true -> p c = true) ->
  every p (PyFloat.lstrip s) = true -> every p s = true.
Proof.
  intros Hs. induction s as [|c s IH]; simpl; [auto|].
  destruct (PyFloat.is_space c) eqn:S; [|auto].
  intros E. rewrite (Hs c S), (IH E). reflexivity.
Qed.

Lemma rstrip_every p s :
  (forall c, PyFloat.is_space c = true -> p c = true) ->
  every p (PyFloat.rstrip s) = true -> every p s = true.
Proof.
  intros Hs. induction s as [|c s IH]; simpl; [auto|].
  destruct (PyFloat.rstrip s) as [|r rs] eqn:R.
  - destruct (PyFloat.is_space c) eqn:S; simpl; intros E.
    + rewrite (Hs c S), IH; auto.
    + apply andb_prop in E as [E1 _]. rewrite E1, IH; auto.
  - intros E. simpl in E. apply andb_prop in E as [E1 E2].
    rewrite E1, IH; auto.
Qed.

Lemma take_sign_every p s :
  p "+"%char = true -> p "-"%char = true ->
  every p (snd (PyFloat.take_sign s)) = true -> every p s = true.
Proof.
  intros Hp Hm. unfold PyFloat.take_sign.
  destruct s as [|c s]; [auto|].
  destruct (Ascii.eqb_spec c "-") as [->|N1]; [simpl; rewrite Hm; auto|].
  destruct (Ascii.eqb_spec c "+") as [->|N2]; [simpl; rewrite Hp; auto|].
  destruct c as [[] [] [] [] [] [] [] []]; try (exfalso; auto; fail); auto.
Qed.

Lemma take_digits_every p : forall s acc n,
  (forall c, PyFloat.is_digit c = true -> p c = true) ->
  every p (snd (PyFloat.take_digits s acc n)) = true -> every p s = true.
Proof.
  induction s as [|c s IH]; intros acc n Hd E; [reflexivity|].
  simpl in *. destruct (PyFloat.is_digit c) eqn:D; [|exact E].
  rewrite (Hd c D). simpl. apply (IH _ _ Hd E).
Qed.

Lemma number_char_digit c : PyFloat.is_digit c = true -> number_char c = true.
Proof. intros H. unfold number_char. rewrite H. reflexivity. Qed.

Lemma number_char_space c : PyFloat.is_space c = true -> number_char c = true.
Proof. intros H. unfold number_char. rewrite H, orb_true_r. reflexivity. Qed.

Lemma number_char_letter c :
  Py.contains (PyFloat.lower c) "einfatyn" = true -> number_char c = true.
Proof. intros H. unfold number_char. rewrite H, !orb_true_r. reflexivity. Qed.

Lemma read_exponent_every s e :
  PyFloat.read_exponent s = Some e -> every number_char s = true.
Proof.
  unfold PyFloat.read_exponent. destruct s as [|c s]; [reflexivity|].
  destruct (Ascii.eqb_spec (PyFloat.lower c) "e") as [L|]; [|discriminate].
  destruct (PyFloat.take_sign s) as [eneg s1] eqn:Sg.
  destruct (PyFloat.take_digits s1 0 0) as [[x n] rest] eqn:Dg.
  destruct (0 <? n); simpl; [|discriminate].
  destruct (String.eqb_spec rest EmptyString) as [->|]; [|discriminate].
  intros _. rewrite number_char_letter by (rewrite L; reflexivity). simpl.
  apply take_sign_every; try reflexivity. rewrite Sg. simpl.
  apply (take_digits_every number_char s1 0 0 number_char_digit).
  rewrite Dg. reflexivity.
Qed.

Lemma read_number_every neg s v :
  PyFloat.read_number neg s = Some v -> every number_char s = true.
Proof.
  unfold PyFloat.read_number.
  destruct (PyFloat.take_digits s 0 0) as [[ip ni] s1] eqn:D1.
  intros H. apply (take_digits_every number_char s 0 0 number_char_digit).
  rewrite D1. simpl.
  assert (G : forall m nf s2,
    (if 0 <? ni + nf
     then match PyFloat.read_exponent s2 with
          | Some e => Some (PyFloat.make_finite neg m (e - nf))
          | None => None
          end
     else None) = Some v -> every number_char s2 = true).
  { intros m nf s2 G. destruct (0 <? ni + nf); [|discriminate].
    destruct (PyFloat.read_exponent s2) as [e|] eqn:R; [|discriminate].
    apply (read_exponent_every _ _ R). }
  destruct s1 as [|c s1']; [reflexivity|].
  destruct (Ascii.eqb_spec c ".") as [->|N].
  - destruct (PyFloat.take_digits s1' ip 0) as [[m nf] s2] eqn:D2.
    simpl. apply (take_digits_every number_char s1' ip 0 number_char_digit).
    rewrite D2. apply (G m nf s2). exact H.
  - destruct c as [[] [] [] [] [] [] [] []];
      try (exfalso; apply N; reflexivity);
      match goal with
      | |- every number_char ?t = true => apply (G ip 0 t); exact H
      end.
Qed.

Lemma read_inf_nan_every neg s v :
  PyFloat.read_inf_nan neg s = Some v -> every number_char s = true.
Proof.
  unfold PyFloat.read_inf_nan. intros H.
  apply (every_impl (fun c => Py.contains (PyFloat.lower c) "einfatyn"));
    [apply number_char_letter|].
  rewrite <- (every_lower (fun c => Py.contains c "einfatyn")).
  destruct (String.eqb_spec (PyFloat.lower_all s) "inf") as [->|]; [reflexivity|].
  destruct (String.eqb_spec (PyFloat.lower_all s) "infinity") as [->|]; [reflexivity|].
  destruct (String.eqb_spec (PyFloat.lower_all s) "nan") as [->|]; [reflexivity|].
  discriminate.
Qed.

(** [float] accepts only texts made of number characters. *)
Lemma float_every s v : PyFloat.float s = Some v -> every number_char s = true.
Proof.
  unfold PyFloat.float, PyFloat.strip.
  destruct (PyFloat.drop_underscores None s) as [s0|] eqn:D; [|discriminate].
  destruct (PyFloat.take_sign _) as [neg body] eqn:Sg. intros H.
  apply (drop_underscores_every number_char s None s0 D eq_refl).
  apply lstrip_every; [apply number_char_space|].
  apply rstrip_every; [apply number_char_space|].
  apply take_sign_every; try reflexivity. rewrite Sg. simpl.
  destruct (PyFloat.read_number neg body) as [x|] eqn:R.
  - apply (read_number_every _ _ _ R).
  - apply (read_inf_nan_every _ _ _ H).
Qed.

(** A text with a quote, a comma or any other foreign character in it is
    refused. *)
Lemma float_refuses s i c :
  String.get i s = Some c -> number_char c = false -> PyFloat.float s = None.
Proof.
  intros G N. destruct (PyFloat.float s) as [v|] eqn:F; [|reflexivity].
  rewrite (every_get number_char s i c (float_every s v F) G) in N. discriminate.
Qed.

(** ** The closing quote of the scanned text *)

Lemma length_append_str (s1 s2 : string) :
  String.length (s1 ++ s2) = (String.length s1 + String.length s2)%nat.
Proof. induction s1 as [|a s1 IH]; simpl; [reflexivity | rewrite IH; reflexivity]. Qed.

Lemma get_append_end (s : string) c r :
  String.get (String.length s) (s ++ String c r) = Some c.
Proof. induction s as [|a s IH]; simpl; auto. Qed.

(** The text the loop scans ends with the quote that closes the repr. *)
Lemma str_bytes_last raw :
  exists body, Py.str_bytes raw = body ++ String (Py.repr_quote raw) EmptyString.
Proof.
  unfold Py.str_bytes.
  exists (String "b" (String (Py.repr_quote raw) (Py.escape_all (Py.repr_quote raw) raw))).
  reflexivity.
Qed.

(** A slice that the end of a device line cuts short takes in the closing
    quote, or is empty: [float] refuses it. *)
Lemma short_field_refused raw :
  Py.contains marker (Py.str_bytes raw) = true ->
  (String.length (field (Py.str_bytes raw)) < 7)%nat ->
  PyFloat.float (field (Py.str_bytes raw)) = None.
Proof.
  intros C L. destruct (contains_first _ _ C) as (i & Hg & Hb).
  rewrite (field_first_marker _ i (conj Hg Hb)) in *.
  rewrite length_substring in L.
  destruct (str_bytes_last raw) as [body E].
  assert (Len : String.length (Py.str_bytes raw) = S (String.length body)).
  { rewrite E, length_append_str. simpl. lia. }
  destruct (Nat.le_gt_cases (String.length (Py.str_bytes raw)) (i + 2)) as [G|G].
  - rewrite substring_beyond by exact G. reflexivity.
  - apply (float_refuses _ (String.length body - (i + 2)) (Py.repr_quote raw)).
    + rewrite substring_correct1 by lia.
      replace (String.length body - (i + 2) + (i + 2))%nat with (String.length body) by lia.
      rewrite E. apply get_append_end.
    + destruct (repr_quote_cases raw) as [-> | ->]; reflexivity.
Qed.

(** C10 (as the code has it). The parser checks no width: with the first
    marker at [i] the slice is the text from [i+2] up to, not including,
    [i+9], cut at the end of the text, and whatever [float] reads from it
    is the value of the sample. For a line read from the device the
    scanned text is the repr of the bytes, so a slice cut short by the end
    of the line holds the closing quote and is refused. *)
Theorem field_width_not_enforced (text : string) (i : nat) :
  first_marker text i ->
  field text = String.substring (i + 2) 7 text /\
  String.length (field text) = Nat.min 7 (String.length text - (i + 2)) /\
  (forall v, PyFloat.float (field text) = Some v -> parse text = Parsed v) /\
  (forall raw, Py.str_bytes raw = text ->
     (String.length (field text) < 7)%nat -> parse text = MalformedNumber).
Proof.
  intros Hm. destruct (first_marker_find text i Hm) as [C _].
  pose proof (field_first_marker text i Hm) as F.
  split; [exact F|]. split; [rewrite F; apply length_substring|]. split.
  - intros v Hv. unfold parse. rewrite C, Hv. reflexivity.
  - intros raw <- L. unfold parse. rewrite C, short_field_refused; auto.
Qed.

(** ** From the bytes of a device line to the scanned text *)

Lemma escape_all_app q l1 l2 :
  Py.escape_all q (l1 ++ l2) = Py.escape_all q l1 ++ Py.escape_all q l2.
Proof.
  induction l1 as [|x l1 IH]; simpl; [reflexivity|].
  rewrite IH, append_assoc_str. reflexivity.
Qed.

Lemma escape_byte_unescaped q x :
  q = Py.squote \/ q = Py.dquote -> Py.unescaped x = true ->
  Py.escape_byte q x = String (ascii_of_byte x) EmptyString.
Proof. intros [-> | ->] H; destruct x; try discriminate H; reflexivity. Qed.

Lemma escape_all_unescaped q l :
  q = Py.squote \/ q = Py.dquote -> forallb Py.unescaped l = true ->
  Py.escape_all q l = string_of_list_byte l.
Proof.
  intros Hq. unfold string_of_list_byte.
  induction l as [|x l IH]; intros H; [reflexivity|].
  simpl in H. apply andb_prop in H as [H1 H2].
  simpl. rewrite (escape_byte_unescaped q x Hq H1), (IH H2). reflexivity.
Qed.

Lemma length_string_of_list_byte l :
  String.length (string_of_list_byte l) = List.length l.
Proof.
  unfold string_of_list_byte.
  induction l as [|x l IH]; simpl; [reflexivity | rewrite IH; reflexivity].
Qed.

Lemma contains_get c : forall s j,
  Py.contains c s = false -> String.get j s <> Some c.
Proof.
  induction s as [|a s IH]; intros j H; [destruct j; discriminate|].
  simpl in H. destruct (Ascii.eqb_spec a c) as [|N]; [discriminate|].
  destruct j as [|j]; simpl; [congruence | apply IH, H].
Qed.

Lemma substring_skip (p : string) : forall x k m,
  String.substring (String.length p + k) m (p ++ x) = String.substring k m x.
Proof. induction p as [|a p IH]; intros x k m; simpl; [reflexivity | apply IH]. Qed.

Lemma substring_prefix (s r : string) :
  String.substring 0 (String.length s) (s ++ r) = s.
Proof.
  induction s as [|a s IH]; simpl.
  - destruct r; reflexivity.
  - rewrite IH. reflexivity.
Qed.

(** A device line whose first marker byte is followed by one plain byte and
    seven plain bytes that [float] reads as [v] is scanned to a sample of
    value [v]: the repr shifts the positions of all of them alike. *)
Lemma device_line_parsed (pre : list byte) (sep : byte) (fld post : list byte)
  (v : pyfloat) :
  ~ In marker_byte pre -> Py.unescaped sep = true ->
  forallb Py.unescaped fld = true -> List.length fld = 7%nat ->
  PyFloat.float (string_of_list_byte fld) = Some v ->
  parse_raw (pre ++ marker_byte :: sep :: fld ++ post) = Parsed v.
Proof.
  intros Hpre Hsep Hfld Hlen Hv.
  set (raw := (pre ++ marker_byte :: sep :: fld ++ post)%list).
  set (q := Py.repr_quote raw).
  assert (Hq : q = Py.squote \/ q = Py.dquote) by apply repr_quote_cases.
  set (p := String "b" (String q (Py.escape_all q pre))).
  set (rest := Py.escape_all q post ++ String q EmptyString).
  assert (E : Py.str_bytes raw =
    p ++ String marker (String (ascii_of_byte sep) (string_of_list_byte fld ++ rest))).
  { unfold Py.str_bytes. fold q. unfold raw, p, rest.
    rewrite escape_all_app. simpl Py.escape_all.
    rewrite (escape_byte_unescaped q sep Hq Hsep).
    replace (Py.escape_byte q marker_byte) with (String marker EmptyString)
      by (destruct Hq as [-> | ->]; reflexivity).
    rewrite escape_all_app, (escape_all_unescaped q fld Hq Hfld).
    rewrite ?append_assoc_str. simpl. rewrite ?append_assoc_str. reflexivity. }
  assert (Cp : Py.contains marker p = false).
  { unfold p. simpl. rewrite (escape_all_no_marker q pre Hq Hpre).
    destruct Hq as [-> | ->]; reflexivity. }
  assert (Fm : first_marker (Py.str_bytes raw) (String.length p)).
  { rewrite E. split; [apply get_append_end|].
    intros j Hj. rewrite <- append_correct1 by exact Hj.
    apply contains_get, Cp. }
  unfold parse_raw.
  apply (parse_first_marker _ _ v Fm).
  rewrite E, substring_skip. simpl String.substring.
  rewrite <- Hlen, <- (length_string_of_list_byte fld), substring_prefix.
  exact Hv.
Qed.

(** ** Further facts about the loop and the button *)



Lemma emitted_app t1 t2 : emitted (t1 ++ t2) = (emitted t1 ++ emitted t2)%list.
Proof. unfold emitted. apply flat_map_app. Qed.

Lemma emitted_try_block e : emitted (try_block e) = captured (Cycle e).
Proof.
  unfold try_block, captured, handler.
  destruct (read e) as [|raw]; [reflexivity|].
  destruct (parse_raw raw); [destruct (write_ok e)| |]; reflexivity.
Qed.

Lemma run_emitted ts : forall a,
  existsb is_stop ts = false -> forallb opens_file ts = true ->
  status a = Looping -> measuring a = true ->
  emitted (trace (run ts a)) = (emitted (trace a) ++ flat_map captured ts)%list.
Proof.
  induction ts as [|t ts IH]; intros a Hs Ho Hl Hm; simpl in *.
  - rewrite app_nil_r. reflexivity.
  - apply orb_false_elim in Hs as [Ht Hs]. apply andb_prop in Ho as [Hot Ho].
    destruct t as [|e]; [discriminate|]. simpl in Hot. simpl tick_step.
    unfold loop_step, loop_body. rewrite Hl, Hm, Hot.
    match goal with |- emitted (trace (run ts ?a1)) = _ =>
      rewrite (IH a1 Hs Ho eq_refl eq_refl) end.
    cbn [trace]. rewrite emitted_app.
    change (emitted (EvOpen (file_path a) :: EvPrint "Data acquiring" :: try_block e))
      with (emitted (try_block e)).
    rewrite emitted_try_block, <- app_assoc. reflexivity.
Qed.

(** The consumer is handed the captured samples in the order of capture:
    while no stop is requested and the file opens, the emissions of a run
    are the accepted samples of its passes, one after the other. *)
Lemma emitted_in_capture_order (ts : list tick) (folder : string) (now : pyfloat) :
  existsb is_stop ts = false -> forallb opens_file ts = true ->
  emitted (trace (run ts (acquirer_init folder now))) = flat_map captured ts.
Proof.
  intros Hs Ho.
  apply (run_emitted ts (acquirer_init folder now) Hs Ho eq_refl eq_refl).
Qed.

(** Without an open port or without a folder the button starts nothing:
    the window is left as it was and a message is printed. *)
Lemma start_needs_port_and_folder (now : pyfloat) (opens : bool) (w : window) :
  w_measuring w = false ->
  (ser w = None ->
   acquire_data now opens w =
     (w, Returned ["There is not a current serial connection!"])) /\
  (forall o, ser w = Some o -> folder_text w = EmptyString ->
   acquire_data now opens w = (w, Returned ["Please browse to a folder first"])).
Proof.
  intros Hm. unfold acquire_data. rewrite Hm. split.
  - intros ->. reflexivity.
  - intros o -> ->. reflexivity.
Qed.

(** ** Runs on sample inputs *)

(** The device line of the specification: the value read is 20.5. *)
Example device_line_20_5 :
  Py.str_bytes (bytes_of ("xxT,0020.500yy" ++ crlf)) = "b'xxT,0020.500yy\r\n'" /\
  field (Py.str_bytes (bytes_of ("xxT,0020.500yy" ++ crlf))) = "0020.50" /\
  parse_raw (bytes_of ("xxT,0020.500yy" ++ crlf)) = Parsed (PFin false (41 # 2)).
Proof. repeat split; reflexivity. Qed.

(** Three pushes of 20.0, 20.5 and 21.0: the current value is 21.0 and the
    variance under the root is 1/4, a standard deviation of 0.5. *)
Example three_pushes :
  let w := pushes [temp 20 1; temp 41 2; temp 21 1] window_init in
  current_temp w = TempOf (PFin false 21) /\
  stdev_temp w = StdevRound4 (Statistics.SqrtOf (1 # 4)) /\
  ((1 # 2) * (1 # 2) == 1 # 4)%Q.
Proof. repeat split; reflexivity. Qed.

(** In the pass that accepts [T,0020.500] the emission stands before any
    write: nothing has been written when the sample is emitted. *)
Lemma emit_before_write_example :
  let tr := trace (run [Cycle (line_env "T,0020.500")] (acquirer_init "logs" clock0)) in
  ~ written_before_emitted tr /\
  exists pre post,
    tr = (pre ++ EvEmit (PFin false (41 # 2), clock0) :: post)%list /\
    forall line ok, ~ In (EvWrite line ok) pre.
Proof.
  intros tr.
  assert (E : tr =
    ([EvOpen [Lit "logs"; Lit "/temperature_log_"; Flt clock0; Lit ".csv"];
      EvPrint "Data acquiring"; EvReadline] ++
     EvEmit (PFin false (41 # 2), clock0) ::
     [EvWrite (log_record (PFin false (41 # 2)) clock0 "14/11/2023 22:13:20 +0000") true;
      EvSleep 250])%list) by reflexivity.
  split.
  - intros H. destruct (H _ _ _ E) as [fmt Hin]. absent Hin.
  - eexists _, _. split; [exact E|]. intros line ok Hin. absent Hin.
Qed.

(** 4001 pushes keep the last 4000, the oldest kept being the second one
    pushed. *)
Lemma history_buffer_fifo_witness :
  let ds := ramp 4001 in
  plot_x window_init = [] /\ plot_y window_init = [] /\
  (4000 < List.length ds)%nat /\
  List.length (plot_y (pushes ds window_init)) = 4000%nat /\
  hd_error (plot_y (pushes ds window_init)) = Some (PFin false 1).
Proof.
  intros ds.
  destruct (history_buffer_fifo window_init ds eq_refl eq_refl)
    as (L & _ & _ & _ & O & _).
  assert (N : List.length ds = 4001%nat)
    by (unfold ds, ramp; rewrite length_map, length_seq; reflexivity).
  assert (G : (4000 < List.length ds)%nat) by (rewrite N; lia).
  split; [reflexivity|]. split; [reflexivity|]. split; [exact G|]. split.
  - rewrite L, N. reflexivity.
  - rewrite (O G), N. reflexivity.
Defined.

(** A marker at index 3 is followed by the numeric field [0020.50], but the
    slice is taken after the first marker, at index 2, and the line yields
    no sample. *)
Lemma later_marker_not_used :
  let text := Py.str_bytes (bytes_of "TT,0020.500") in
  String.get 3 text = Some marker /\
  PyFloat.float (String.substring 5 7 text) = Some (PFin false (41 # 2)) /\
  field text = ",0020.5" /\
  parse text = MalformedNumber /\
  try_block (line_env "TT,0020.500") = EvReadline :: handler.
Proof. repeat split; reflexivity. Qed.

(** The device line [xT,0020.500], scanned as [b'xT,0020.500']. *)
Lemma first_marker_field_parsed_witness :
  let text := Py.str_bytes (bytes_of "xT,0020.500") in
  first_marker text 3 /\
  PyFloat.float (String.substring (3 + 2) 7 text) = Some (PFin false (41 # 2)) /\
  parse text = Parsed (PFin false (41 # 2)).
Proof.
  intros text.
  assert (F : first_marker text 3).
  { split; [reflexivity|]. intros [|[|[|j]]] Hj; try discriminate. lia. }
  split; [exact F|]. split; [reflexivity|].
  apply (first_marker_field_parsed text 3 (PFin false (41 # 2)) F eq_refl).
Defined.



(** The line [T,abcdefg] ends in the handler of the device errors, with its
    message and its ten-second sleep. *)
Lemma malformed_number_takes_error_path :
  parse_raw (bytes_of "T,abcdefg") = MalformedNumber /\
  try_block (line_env "T,abcdefg") =
    [EvReadline; EvPrint "Error connecting to the serial device"; EvSleep 10000] /\
  try_block (line_env "T,abcdefg") = try_block error_env.
Proof. repeat split; reflexivity. Qed.

(** The same line in the first pass of a fresh acquirer. *)
Lemma malformed_number_backs_off_witness :
  let e := line_env "T,abcdefg" in
  let a := acquirer_init "logs" clock0 in
  read e = ReadBytes (bytes_of "T,abcdefg") /\
  Py.contains marker (Py.str_bytes (bytes_of "T,abcdefg")) = true /\
  PyFloat.float (field (Py.str_bytes (bytes_of "T,abcdefg"))) = None /\
  status (loop_step e a) = Looping /\
  trace (loop_step e a) = backoff_pass (file_path a).
Proof.
  intros e a.
  destruct (malformed_number_backs_off e (bytes_of "T,abcdefg") a
              eq_refl eq_refl eq_refl) as (_ & _ & _ & _ & G).
  destruct (G eq_refl eq_refl eq_refl) as (S & _ & T).
  split; [reflexivity|]. split; [reflexivity|]. split; [reflexivity|].
  split; [exact S | exact T].
Defined.

(** With the port open and a folder chosen, the second call in a row
    returns normally and ends the acquisition the first one began. *)
Lemma second_start_stops_acquisition :
  let w1 := app_run [ClickConnect true; ClickBrowse "logs" true] window_init in
  let r1 := acquire_data clock0 true w1 in
  let r2 := acquire_data clock0 true (fst r1) in
  snd r1 = Returned [] /\ w_measuring (fst r1) = true /\ active (fst r1) = 1%nat /\
  snd r2 = Returned [] /\ w_measuring (fst r2) = false /\ active (fst r2) = 0%nat /\
  List.length (threads (fst r2)) = 1%nat.
Proof. repeat split; reflexivity. Qed.

(** A call made while the first acquisition runs. *)
Lemma acquire_data_toggles_witness :
  let evs := [ClickConnect true; ClickBrowse "logs" true; ClickAcquire clock0 true] in
  let w := app_run evs window_init in
  w_measuring w = true /\
  snd (acquire_data clock0 true w) = Returned [] /\
  active (fst (acquire_data clock0 true w)) = 0%nat.
Proof.
  intros evs w.
  destruct (acquire_data_toggles evs clock0 true) as (_ & _ & G).
  destruct (G eq_refl) as (R & _ & _ & A & _).
  split; [reflexivity|]. split; [exact R | exact A].
Defined.


(** A line without marker in the first pass. *)
Lemma no_marker_no_sample_witness :
  let e := line_env "no data" in
  let a := acquirer_init "logs" clock0 in
  read e = ReadBytes (bytes_of "no data") /\
  ~ In marker_byte (bytes_of "no data") /\
  parse_raw (bytes_of "no data") = NoMarker /\
  status (loop_step e a) = Looping.
Proof.
  intros e a.
  assert (N : ~ In marker_byte (bytes_of "no data")).
  { intros H. absent H. }
  destruct (no_marker_no_sample e (bytes_of "no data") a eq_refl N)
    as (P & _ & _ & G).
  destruct (G eq_refl eq_refl eq_refl) as (S & _).
  split; [reflexivity|]. split; [exact N|]. split; [exact P | exact S].
Defined.

Lemma valid_gmt0 : valid_struct_time gmt0.
Proof. unfold valid_struct_time, gmt0. simpl. lia. Defined.

Lemma sample_text_plain x : plain (sample_text x) = true.
Proof.
  destruct x as [neg q | neg |]; simpl; try reflexivity.
  destruct (Qeq_bool q (41 # 2)); reflexivity.
Defined.

(** The record of the line [T,0020.500]. *)
Lemma log_record_format_witness :
  let e := line_env "T,0020.500" in
  read e = ReadBytes (bytes_of "T,0020.500") /\
  parse_raw (bytes_of "T,0020.500") = Parsed (PFin false (41 # 2)) /\
  valid_struct_time (gmt e) /\
  (forall x, plain (sample_text x) = true) /\
  render sample_text
    (log_record (PFin false (41 # 2)) (clock e) (Time.strftime (gmt e))) =
    "20.5, 1700000000.0, 14/11/2023 22:13:20 +0000" ++ newline /\
  split_on ","
    (render sample_text
       (log_record (PFin false (41 # 2)) (clock e) (Time.strftime (gmt e)))) =
    ["20.5"; " 1700000000.0"; " 14/11/2023 22:13:20 +0000" ++ newline].
Proof.
  intros e.
  destruct (log_record_format e (bytes_of "T,0020.500") (PFin false (41 # 2))
              sample_text eq_refl eq_refl valid_gmt0 sample_text_plain)
    as (_ & _ & T & S & _).
  split; [reflexivity|]. split; [reflexivity|]. split; [exact valid_gmt0|].
  split; [exact sample_text_plain|]. split; [exact T | exact S].
Defined.

(** The device line [T,5]: the scanned text is [b'T,5'], the slice is the
    digit and the closing quote, and no sample comes of it. *)
Lemma line_ending_in_short_field :
  Py.str_bytes (bytes_of "T,5") = "b'T,5'" /\
  field (Py.str_bytes (bytes_of "T,5")) = "5'" /\
  parse_raw (bytes_of "T,5") = MalformedNumber /\
  try_block (line_env "T,5") = EvReadline :: handler.
Proof. repeat split; reflexivity. Qed.

(** A one-digit number followed by blanks is accepted, and so is a text
    that ends right after the digit. *)
Lemma field_width_not_enforced_witness :
  first_marker "xT,5" 1 /\
  field "xT,5" = "5" /\
  parse "xT,5" = Parsed (PFin false 5) /\
  parse_raw (bytes_of "T,5      ") = Parsed (PFin false 5).
Proof.
  assert (F : first_marker "xT,5" 1).
  { split; [reflexivity|]. intros [|j] Hj; [discriminate | lia]. }
  destruct (field_width_not_enforced "xT,5" 1 F) as (_ & _ & G & _).
  split; [exact F|]. split; [reflexivity|].
  split; [exact (G (PFin false 5) eq_refl) | reflexivity].
Defined.

(** The device line of the specification, split at its first marker. *)
Lemma device_line_parsed_witness :
  let raw := bytes_of ("xxT,0020.500yy" ++ crlf) in
  raw = (bytes_of "xx" ++ marker_byte :: bytes_of "," ++ bytes_of "0020.50" ++
         bytes_of ("0yy" ++ crlf))%list /\
  parse_raw raw = Parsed (PFin false (41 # 2)).
Proof.
  intros raw. split; [reflexivity|].
  assert (N : ~ In marker_byte (bytes_of "xx")).
  { intros H. absent H. }
  apply (device_line_parsed (bytes_of "xx") x2c (bytes_of "0020.50")
           (bytes_of ("0yy" ++ crlf)) (PFin false (41 # 2)) N
           eq_refl eq_refl eq_refl eq_refl).
Defined.

(** Four passes: an accepted line, a line without marker, a failed read
    and another accepted line. *)
Lemma emitted_in_capture_order_witness :
  let ts := [Cycle (line_env "T,0020.500"); Cycle (line_env "no data");
             Cycle error_env; Cycle (line_env "T,0021.000")] in
  existsb is_stop ts = false /\ forallb opens_file ts = true /\
  emitted (trace (run ts (acquirer_init "logs" clock0))) =
    [(PFin false (41 # 2), clock0); (PFin false 21, clock0)].
Proof.
  intros ts. split; [reflexivity|]. split; [reflexivity|].
  rewrite (emitted_in_capture_order ts "logs" clock0 eq_refl eq_refl).
  reflexivity.
Defined.

(** The button pressed right after start-up. *)
Lemma start_needs_port_and_folder_witness :
  w_measuring window_init = false /\ ser window_init = None /\
  acquire_data clock0 true window_init =
    (window_init, Returned ["There is not a current serial connection!"]).
Proof.
  split; [reflexivity|]. split; [reflexivity|].
  apply (proj1 (start_needs_port_and_folder clock0 true window_init eq_refl) eq_refl).
Defined.

(** ** The port panel *)

Lemma substring_0_app (a : string) : forall b k,
  String.substring 0 (String.length a + k) (a ++ b) = a ++ String.substring 0 k b.
Proof. induction a as [|c a IH]; intros b k; simpl; [reflexivity | rewrite IH; reflexivity]. Qed.

Lemma substring_0_app_le (a : string) : forall b k,
  (k <= String.length a)%nat ->
  String.substring 0 k (a ++ b) = String.substring 0 k a.
Proof.
  induction a as [|c a IH]; intros b k H; simpl in *.
  - assert (k = O) by lia. subst k. rewrite !substring_zero. reflexivity.
  - destruct k as [|k]; [reflexivity|]. rewrite IH by lia. reflexivity.
Qed.

Lemma slice_prefix (s : string) (n : nat) :
  Py.slice s 0 (Z.of_nat n) = String.substring 0 n s.
Proof. apply (slice_substring s 0 n). Qed.

Lemma first_word_before_blank (w rest : string) :
  Py.contains " " w = false -> Ports.first_word (w ++ String " " rest) = w.
Proof. intros H. unfold Ports.first_word. rewrite split_on_app by exact H. reflexivity. Qed.

Lemma first_word_no_blank (w : string) :
  Py.contains " " w = false -> Ports.first_word w = w.
Proof. intros H. unfold Ports.first_word. rewrite split_on_none by exact H. reflexivity. Qed.

Lemma contains_substring_0 c : forall s k,
  Py.contains c s = false -> Py.contains c (String.substring 0 k s) = false.
Proof.
  induction s as [|a s IH]; intros k H; [rewrite substring_nil; reflexivity|].
  simpl in H. destruct (Ascii.eqb a c) eqn:E; [discriminate|].
  destruct k as [|k]; simpl; [reflexivity|]. rewrite E. apply IH, H.
Qed.

(** A port whose device name has no blank and at most fourteen characters
    comes back from the combo box as it went in: [toggle_port] hands
    [Serial] the device name. *)
Theorem short_port_name_recovered (dev rest : string) :
  Py.contains " " dev = false -> (String.length dev <= 14)%nat ->
  Ports.first_word (Ports.item (dev ++ String " " rest)) = dev.
Proof.
  intros Hb Hl. unfold Ports.item.
  change 15 with (Z.of_nat 15). rewrite slice_prefix.
  replace 15%nat with (String.length dev + S (14 - String.length dev))%nat by lia.
  rewrite substring_0_app. simpl String.substring.
  rewrite append_assoc_str. simpl. apply first_word_before_blank, Hb.
Qed.

(** A device name of fifteen characters or more without a blank is cut: the
    name handed to [Serial] is its first fifteen characters followed by
    three dots, eighteen characters whatever the name was. *)
Theorem long_port_name_truncated (dev rest : string) :
  Py.contains " " dev = false -> (15 <= String.length dev)%nat ->
  Ports.first_word (Ports.item (dev ++ rest)) = String.substring 0 15 dev ++ "..." /\
  String.length (Ports.first_word (Ports.item (dev ++ rest))) = 18%nat.
Proof.
  intros Hb Hl.
  assert (E : Ports.first_word (Ports.item (dev ++ rest)) =
              String.substring 0 15 dev ++ "...").
  { unfold Ports.item. change 15 with (Z.of_nat 15).
    rewrite slice_prefix, substring_0_app_le by exact Hl.
    apply first_word_no_blank. rewrite contains_app, contains_substring_0 by exact Hb.
    reflexivity. }
  split; [exact E|].
  rewrite E, length_append_str, length_substring.
  change (String.length "...") with 3%nat. lia.
Qed.


Lemma panel_inv_step p ev : panel_inv p -> panel_inv (Ports.panel_step p ev).
Proof.
  intros H. destruct ev as [ports | i | opens]; simpl.
  - exact H.
  - unfold Ports.choose. destruct (_ <? _)%nat; exact H.
  - unfold Ports.toggle_port, panel_inv, Ports.connected in *.
    destruct (Ports.p_ser p) as [s|]; cbn.
    + right. repeat split; discriminate.
    + destruct opens; cbn; [left; auto|].
      destruct H as [(C & _) | H]; [discriminate | right; exact H].
Qed.

Lemma panel_inv_run evs : forall p, panel_inv p -> panel_inv (Ports.panel_run evs p).
Proof.
  induction evs as [|ev evs IH]; intros p H; [exact H|].
  simpl. apply IH, panel_inv_step, H.
Qed.

(** Whatever is clicked, refreshed or chosen, the connect button reads
    "Disconnect" and the status reads "CONNECTED" exactly while an open
    port is held. *)
Theorem panel_texts_follow_port (evs : list Ports.panel_event) :
  let p := Ports.panel_run evs Ports.panel_init in
  (Ports.connected p = true <-> Ports.connect_text p = "Disconnect") /\
  (Ports.connected p = true <-> Ports.status_text p = "CONNECTED").
Proof.
  intros p.
  assert (I : panel_inv p).
  { apply panel_inv_run. right. repeat split; discriminate. }
  destruct I as [(C & T & S) | (C & T & S)]; rewrite C.
  - rewrite T, S. repeat split.
  - split; split; intros H; try discriminate; contradiction.
Qed.

(** After an attempt to open the port has failed, the closed Serial object
    stays in [self.ser]: the next click on the button only drops it, and it
    takes one more click to connect, to the port named by the first word of
    the current entry. *)
Theorem failed_open_needs_two_clicks (p : Ports.panel) :
  Ports.p_ser p = None ->
  let failed := Ports.toggle_port false p in
  Ports.p_ser failed =
    Some (Ports.mk_serial (Ports.first_word (Ports.current_text p)) false) /\
  Ports.p_ser (Ports.toggle_port true failed) = None /\
  Ports.p_ser (Ports.toggle_port true (Ports.toggle_port true failed)) =
    Some (Ports.mk_serial (Ports.first_word (Ports.current_text p)) true).
Proof.
  intros H. unfold Ports.toggle_port. rewrite H. cbn. auto.
Qed.

(** The window's [toggle_port] is the panel's, seen through what the
    window knows of the port. *)
Lemma toggle_port_view (opens : bool) (p : Ports.panel) (w : window) :
  ser w = port_view p ->
  ser (toggle_port opens w) = port_view (Ports.toggle_port opens p).
Proof.
  unfold port_view, toggle_port, Ports.toggle_port. intros E. rewrite E.
  destruct (Ports.p_ser p); cbn; [reflexivity|]. destruct opens; reflexivity.
Qed.

(** ** The buttons of the window *)

Lemma buttons_inv_same w w' :
  connect_enabled w' = connect_enabled w -> browse_enabled w' = browse_enabled w ->
  w_measuring w' = w_measuring w -> start_text w' = start_text w ->
  buttons_inv w -> buttons_inv w'.
Proof. unfold buttons_inv. intros -> -> -> ->. auto. Qed.

Lemma buttons_inv_step w ev : buttons_inv w -> buttons_inv (app_step w ev).
Proof.
  intros I. destruct ev as [now opens | opens | p ex | i e | d]; simpl.
  - destruct I as (C & B & T). unfold acquire_data.
    destruct (w_measuring w) eqn:M; simpl.
    + unfold toggle_port, with_ser. cbn. destruct (ser w); cbn;
        repeat split; auto; discriminate.
    + destruct (ser w) as [[|]|];
        try destruct (0 <? String.length (folder_text w))%nat; cbn;
        unfold buttons_inv; cbn; rewrite ?M; repeat split; auto; discriminate.
  - destruct (connect_enabled w); [|exact I].
    unfold toggle_port. destruct (ser w);
      apply (buttons_inv_same w); auto.
  - destruct (browse_enabled w); [|exact I].
    unfold browse_file_folder. destruct ex; [|exact I].
    apply (buttons_inv_same w); auto.
  - apply (buttons_inv_same w); auto.
  - apply (buttons_inv_same w); auto.
Qed.

Lemma buttons_inv_run evs : forall w, buttons_inv w -> buttons_inv (app_run evs w).
Proof.
  induction evs as [|ev evs IH]; intros w H; [exact H|].
  simpl. apply IH, buttons_inv_step, H.
Qed.

(** The connect and browse buttons are enabled exactly while nothing is
    being measured; while an acquisition runs the caption of the acquire
    button is "Stop Acquire" and a click on either of the other two changes
    nothing, so neither the port nor the folder can change under a running
    acquisition. *)
Theorem buttons_locked_while_measuring (evs : list app_event) :
  let w := app_run evs window_init in
  connect_enabled w = negb (w_measuring w) /\
  browse_enabled w = negb (w_measuring w) /\
  (w_measuring w = true ->
   start_text w = "Stop Acquire" /\
   forall opens folder path_exists,
     app_step w (ClickConnect opens) = w /\
     app_step w (ClickBrowse folder path_exists) = w).
Proof.
  intros w.
  assert (I : buttons_inv w).
  { apply buttons_inv_run. repeat split; auto. discriminate. }
  destruct I as (C & B & T). repeat split; auto; simpl.
  - rewrite C, H. reflexivity.
  - rewrite B, H. reflexivity.
Qed.

Lemma nonempty_length (s : string) :
  (0 <? String.length s)%nat = true <-> s <> EmptyString.
Proof.
  destruct s; simpl; split; intros H.
  - discriminate.
  - contradiction.
  - discriminate.
  - reflexivity.
Qed.

(** With nothing being measured, a press of the acquire button starts an
    acquisition exactly when an open port is held and a folder is set: it
    then adds one acquirer that logs into that folder. With a Serial object
    that failed to open, [flushOutput] raises after the caption has already
    been changed, and nothing is started. *)
Theorem start_exactly_when_ready (now : pyfloat) (opens : bool) (w : window) :
  w_measuring w = false ->
  let r := acquire_data now opens w in
  (w_measuring (fst r) = true <->
   ser w = Some true /\ folder_text w <> EmptyString) /\
  (ser w = Some true -> folder_text w <> EmptyString ->
   snd r = Returned [] /\
   threads (fst r) = (threads w ++ [acquirer_init (folder_text w) now])%list /\
   start_text (fst r) = "Stop Acquire") /\
  (ser w = Some false -> folder_text w <> EmptyString ->
   snd r = Raises "PortNotOpenError" /\
   threads (fst r) = threads w /\
   start_text (fst r) = "Stop Acquire").
Proof.
  intros M r. unfold r, acquire_data. rewrite M. cbn [negb].
  destruct (ser w) as [[|]|] eqn:S;
    destruct (0 <? String.length (folder_text w))%nat eqn:F; cbn;
    rewrite ?M;
    (split; [split|split]);
    try (intros H; discriminate H);
    try (intros [H1 H2]; try discriminate H1;
         apply nonempty_length in H2; congruence);
    try (intros _ H2; apply nonempty_length in H2; congruence);
    try (intros H1; discriminate H1);
    auto.
  intros _. split; [reflexivity|]. apply nonempty_length, F.
Qed.

(** ** Where the log files go *)

Lemma loop_step_file_path e a : file_path (loop_step e a) = file_path a.
Proof.
  unfold loop_step, loop_body, loop_exit.
  destruct (status a); auto.
  destruct (measuring a); [destruct (open_ok e) | destruct (f_bound a)]; reflexivity.
Qed.

Lemma in_update_nth {A} (f : A -> A) : forall (l : list A) i x,
  In x (update_nth i f l) -> In x l \/ exists y, In y l /\ x = f y.
Proof.
  induction l as [|a l IH]; intros i x H; [destruct i; contradiction|].
  destruct i as [|i]; simpl in H.
  - destruct H as [<- | H]; [right; exists a; simpl; auto | left; simpl; auto].
  - destruct H as [<- | H]; [left; simpl; auto|].
    destruct (IH i x H) as [H' | (y & Hy & ->)]; [left; simpl; auto|].
    right. exists y. simpl. auto.
Qed.

Lemma in_stop_last : forall (l : list acquirer) x,
  In x (stop_last l) -> In x l \/ exists y, In y l /\ x = request_stop y.
Proof.
  induction l as [|a l IH]; intros x H; [contradiction|].
  simpl in H. destruct l as [|b l].
  - destruct H as [<- | []]. right. exists a. simpl. auto.
  - destruct H as [<- | H]; [left; simpl; auto|].
    destruct (IH x H) as [H' | (y & Hy & ->)]; [left; simpl; auto|].
    right. exists y. split; [right; exact Hy | reflexivity].
Qed.

Lemma browsed_app e1 e2 : browsed (e1 ++ e2) = (browsed e1 ++ browsed e2)%list.
Proof. apply flat_map_app. Qed.

Lemma start_times_app e1 e2 :
  start_times (e1 ++ e2) = (start_times e1 ++ start_times e2)%list.
Proof. apply flat_map_app. Qed.

Lemma app_run_snoc evs ev w : app_run (evs ++ [ev]) w = app_step (app_run evs w) ev.
Proof. unfold app_run. rewrite fold_left_app. reflexivity. Qed.

(** The provenance survives more events. *)
Lemma provenance_weaken evs ev w :
  provenance evs w -> provenance (evs ++ [ev]) w.
Proof.
  intros [F T]. split.
  - destruct F as [F | F]; [left; exact F | right].
    rewrite browsed_app. apply in_or_app. left. exact F.
  - intros a Ha. destruct (T a Ha) as (folder & now & P & N & B & S).
    exists folder, now. rewrite browsed_app, start_times_app.
    repeat split; auto; apply in_or_app; left; assumption.
Qed.

Lemma provenance_same evs w w' :
  folder_text w' = folder_text w ->
  (forall a, In a (threads w') ->
     exists y, In y (threads w) /\ file_path a = file_path y) ->
  provenance evs w -> provenance evs w'.
Proof.
  intros Ef Et [F T]. split; [rewrite Ef; exact F|].
  intros a Ha. destruct (Et a Ha) as (y & Hy & E). rewrite E. apply T, Hy.
Qed.

Lemma provenance_step evs ev w :
  provenance evs w -> provenance (evs ++ [ev]) (app_step w ev).
Proof.
  intros I. pose proof (provenance_weaken evs ev w I) as I'.
  destruct ev as [now opens | opens | p ex | i e | d]; simpl.
  - unfold acquire_data. destruct (w_measuring w); simpl.
    + apply (provenance_same _ w); auto.
      * unfold toggle_port, with_ser. destruct (ser _); reflexivity.
      * intros a Ha.
        assert (Ha' : In a (stop_last (threads w))).
        { revert Ha. unfold toggle_port, with_ser. cbn. destruct (ser w); auto. }
        destruct (in_stop_last _ _ Ha') as [H | (y & Hy & ->)]; eauto.
    + destruct (ser w) as [[|]|]; try exact I';
        destruct (0 <? String.length (folder_text w))%nat eqn:F; try exact I'.
      * destruct I' as [Fo T]. split; [exact Fo|]. cbn [threads].
        intros a Ha. apply in_app_or in Ha as [Ha | [<- | []]]; [apply T, Ha|].
        exists (folder_text w), now.
        assert (N : folder_text w <> EmptyString) by (apply nonempty_length, F).
        repeat split; auto.
        -- destruct Fo as [Fo | Fo]; [contradiction | exact Fo].
        -- rewrite start_times_app. apply in_or_app. right. simpl. auto.
  - destruct (connect_enabled w); [|exact I'].
    apply (provenance_same _ w); auto.
    + unfold toggle_port, with_ser. destruct (ser w); reflexivity.
    + intros a Ha. exists a. split; [|reflexivity].
      revert Ha. unfold toggle_port, with_ser. destruct (ser w); auto.
  - destruct (browse_enabled w); [|exact I'].
    unfold browse_file_folder. destruct ex; [|exact I'].
    destruct I' as [_ T]. split; [|exact T].
    right. cbn [folder_text]. rewrite browsed_app. apply in_or_app. right.
    simpl. auto.
  - apply (provenance_same _ w); auto. intros a Ha. cbn [threads with_threads] in Ha.
    destruct (in_update_nth _ _ _ _ Ha) as [H | (y & Hy & ->)]; eauto.
    exists y. split; [exact Hy | apply loop_step_file_path].
  - apply (provenance_same _ w); auto. intros a Ha. eauto.
Qed.

(** Every acquirer the application ever makes logs into a file named
    [temperature_log_<clock reading>.csv] inside a folder that is not
    empty, that the user picked in the dialog and that existed when it was
    picked, the clock reading being the one of a press of the button. *)
Theorem log_files_in_browsed_folders (evs : list app_event) (a : acquirer) :
  In a (threads (app_run evs window_init)) ->
  exists folder now,
    file_path a = session_path folder now /\ folder <> EmptyString /\
    In folder (browsed evs) /\ In now (start_times evs).
Proof.
  assert (I : provenance evs (app_run evs window_init)).
  { induction evs as [|ev evs IH] using rev_ind.
    - split; [left; reflexivity | intros x []].
    - rewrite app_run_snoc. apply provenance_step, IH. }
  apply I.
Qed.

(** ** The chart over a whole run of the application *)

Lemma chart_of_update_chart d w w' :
  chart_of w = chart_of w' ->
  chart_of (update_chart d w) = chart_of (update_chart d w').
Proof.
  unfold chart_of. intros E. injection E as Ex Ey Ec Es.
  unfold update_chart. cbn. rewrite Ex, Ey, Es. reflexivity.
Qed.

Lemma chart_of_app_step w ev :
  chart_of (app_step w ev) =
  match ev with
  | NewData d => chart_of (update_chart d w)
  | _ => chart_of w
  end.
Proof.
  destruct ev as [now opens | opens | p ex | i e | d]; simpl; try reflexivity.
  - unfold acquire_data. destruct (w_measuring w); simpl.
    + unfold toggle_port, with_ser. cbn. destruct (ser w); reflexivity.
    + destruct (ser w) as [[|]|]; try reflexivity;
        destruct (0 <? String.length (folder_text w))%nat; reflexivity.
  - destruct (connect_enabled w); [|reflexivity].
    unfold toggle_port. destruct (ser w); reflexivity.
  - destruct (browse_enabled w); [|reflexivity].
    unfold browse_file_folder. destruct ex; reflexivity.
Qed.

Lemma chart_of_app_run evs : forall w w',
  chart_of w = chart_of w' ->
  chart_of (app_run evs w) = chart_of (pushes (deliveries evs) w').
Proof.
  induction evs as [|ev evs IH]; intros w w' E; [exact E|].
  simpl app_run. destruct ev as [now opens | opens | p ex | i e | d];
    try (apply IH; rewrite chart_of_app_step; exact E).
  simpl deliveries. simpl pushes. apply IH.
  rewrite chart_of_app_step. apply chart_of_update_chart, E.
Qed.

Lemma combine_fst_snd {A B} (l : list (A * B)) :
  combine (map fst l) (map snd l) = l.
Proof. induction l as [|[a b] l IH]; simpl; [reflexivity | rewrite IH; reflexivity]. Qed.

Lemma skipn_map_comm {A B} (f : A -> B) : forall n (l : list A),
  skipn n (map f l) = map f (skipn n l).
Proof. induction n as [|n IH]; intros [|a l]; simpl; auto. Qed.

Lemma current_temp_pushes ds w :
  current_temp (pushes ds w) =
  match rev ds with
  | [] => current_temp w
  | d :: _ => TempOf (fst d)
  end.
Proof.
  destruct ds as [|d ds] using rev_ind; [reflexivity|].
  rewrite pushes_snoc, rev_app_distr. reflexivity.
Qed.

(** Nothing but [update_chart] touches the chart: over any run of the
    application, through starts, stops and reconnections, the plot lists
    hold the last 4000 samples delivered, each time paired with its
    temperature, the two lists have the same length (so [pop(0)] never
    fails on one of them), and the temperature label shows the last value
    delivered. The chart is not cleared when a new acquisition starts. *)
Theorem chart_survives_sessions (evs : list app_event) :
  let w := app_run evs window_init in
  let ds := deliveries evs in
  combine (plot_y w) (plot_x w) = skipn (List.length ds - 4000) ds /\
  List.length (plot_x w) = List.length (plot_y w) /\
  List.length (plot_y w) = Nat.min (List.length ds) 4000 /\
  current_temp w =
    match rev ds with
    | [] => TempInitial
    | d :: _ => TempOf (fst d)
    end.
Proof.
  intros w ds.
  pose proof (chart_of_app_run evs window_init window_init eq_refl) as E.
  unfold chart_of in E. injection E as Ex Ey Ec _. fold w ds in Ex, Ey, Ec.
  destruct (pushes_retained window_init ds eq_refl eq_refl) as [Px Py].
  rewrite Ex, Ey, Ec, Px, Py. change 4000%nat with history_limit.
  rewrite !skipn_map_comm, combine_fst_snd, !length_map, length_skipn.
  repeat split; [lia|]. apply current_temp_pushes.
Qed.

(** ** The name of the session file *)

Lemma append_inj_l (a x y : string) : a ++ x = a ++ y -> x = y.
Proof.
  induction a as [|c a IH]; simpl; intros H; [exact H|].
  injection H as H. apply IH, H.
Qed.

Lemma append_inj_r (s : string) : forall x y, x ++ s = y ++ s -> x = y.
Proof.
  induction x as [|c x IH]; intros y H.
  - destruct y as [|d y]; [reflexivity|]. exfalso.
    apply (f_equal String.length) in H. simpl in H.
    rewrite length_append_str in H. lia.
  - destruct y as [|d y].
    + exfalso. apply (f_equal String.length) in H. simpl in H.
      rewrite length_append_str in H. lia.
    + simpl in H. injection H as -> H. f_equal. apply IH, H.
Qed.

(** The log file of a session is [<folder>/temperature_log_<t>.csv] with
    [t] the text of the clock reading taken when the acquirer was made, so
    two sessions in the same folder whose clock readings print differently
    never share a file. *)
Theorem session_files_differ (float_text : pyfloat -> string)
  (folder : string) (now1 now2 : pyfloat) :
  float_text now1 <> float_text now2 ->
  render float_text (file_path (acquirer_init folder now1)) =
    folder ++ "/temperature_log_" ++ float_text now1 ++ ".csv" /\
  render float_text (file_path (acquirer_init folder now1)) <>
  render float_text (file_path (acquirer_init folder now2)).
Proof.
  intros N.
  assert (R : forall now, render float_text (file_path (acquirer_init folder now)) =
                          folder ++ "/temperature_log_" ++ float_text now ++ ".csv").
  { intros now. reflexivity. }
  split; [apply R|]. rewrite !R. intros E. apply N.
  apply append_inj_l, append_inj_l in E. apply append_inj_r in E. exact E.
Qed.

(** ** The end of the loop *)



Lemma unfinished_app t1 t2 : unfinished t1 -> unfinished t2 -> unfinished (t1 ++ t2).
Proof.
  intros [F1 C1] [F2 C2]. split; intros H; apply in_app_or in H as [H | H];
    contradiction.
Qed.

Lemma unfinished_try_block e : unfinished (try_block e).
Proof. split; apply try_block_never_finishes. Qed.

(** Either the loop has not ended and nothing of its end is in the trace,
    or it has and the trace ends with the one close and the one
    [finished]. *)
Lemma end_of_loop_step e a :
  (status a <> Finished /\ unfinished (trace a)) \/
  (status a = Finished /\ exists pre,
     trace a = (pre ++ [EvClose; EvFinished])%list /\ unfinished pre) ->
  (status (loop_step e a) <> Finished /\ unfinished (trace (loop_step e a))) \/
  (status (loop_step e a) = Finished /\ exists pre,
     trace (loop_step e a) = (pre ++ [EvClose; EvFinished])%list /\ unfinished pre).
Proof.
  intros H. unfold loop_step. destruct (status a) eqn:S.
  - destruct H as [[_ U] | [D _]]; [|discriminate].
    destruct (measuring a).
    + left. unfold loop_body. destruct (open_ok e); cbn [status trace].
      * split; [discriminate|]. apply unfinished_app; [exact U|].
        destruct (unfinished_try_block e) as [F C].
        split; intros [X | [X | X]]; try discriminate; contradiction.
      * split; [discriminate|]. apply unfinished_app; [exact U|].
        split; intros [X | []]; discriminate.
    + unfold loop_exit. destruct (f_bound a); cbn [status trace].
      * right. split; [reflexivity|]. exists (trace a). auto.
      * left. split; [discriminate | exact U].
  - rewrite S. exact H.
  - rewrite S. exact H.
Qed.

Lemma end_of_loop_run ts : forall a,
  (status a <> Finished /\ unfinished (trace a)) \/
  (status a = Finished /\ exists pre,
     trace a = (pre ++ [EvClose; EvFinished])%list /\ unfinished pre) ->
  (status (run ts a) <> Finished /\ unfinished (trace (run ts a))) \/
  (status (run ts a) = Finished /\ exists pre,
     trace (run ts a) = (pre ++ [EvClose; EvFinished])%list /\ unfinished pre).
Proof.
  induction ts as [|t ts IH]; intros a H; [exact H|].
  simpl. apply IH. destruct t as [|e]; [exact H | apply end_of_loop_step, H].
Qed.

(** Completion is signalled at most once, and only by a loop that ended
    normally: [finished] is in the trace exactly when the status is
    [Finished], and then the trace ends with the close of the file followed
    by [finished], neither of which occurs before. *)
Theorem finished_exactly_once (ts : list tick) (folder : string) (now : pyfloat) :
  let a := run ts (acquirer_init folder now) in
  (In EvFinished (trace a) <-> status a = Finished) /\
  (status a = Finished ->
   exists pre, trace a = (pre ++ [EvClose; EvFinished])%list /\ unfinished pre).
Proof.
  intros a.
  assert (H : (status a <> Finished /\ unfinished (trace a)) \/
              (status a = Finished /\ exists pre,
                 trace a = (pre ++ [EvClose; EvFinished])%list /\ unfinished pre)).
  { apply end_of_loop_run. left. split; [discriminate|]. split; intros []. }
  destruct H as [[N [F C]] | [S (pre & E & U)]].
  - split; [split; intros X; contradiction | intros X; contradiction].
  - split; [|intros _; exists pre; auto].
    split; [intros _; exact S|]. intros _. rewrite E.
    apply in_or_app. right. simpl. auto.
Qed.

(** ** The file and the sleeps of the loop *)

Lemma count_app p t1 t2 : count p (t1 ++ t2) = (count p t1 + count p t2)%nat.
Proof. unfold count. rewrite filter_app, length_app. reflexivity. Qed.

Lemma count_try_block e :
  count is_read_event (try_block e) = 1%nat /\
  count is_open_event (try_block e) = 0%nat /\
  count is_close_event (try_block e) = 0%nat /\
  (forall p, ~ In (EvOpen p) (try_block e)).
Proof.
  unfold try_block, handler.
  destruct (read e) as [|raw]; [|destruct (parse_raw raw); [destruct (write_ok e)| |]];
    repeat split; try reflexivity; intros p H; absent H.
Qed.

Lemma count_cons p x l :
  count p (x :: l) = ((if p x then 1 else 0) + count p l)%nat.
Proof. unfold count. simpl. destruct (p x); reflexivity. Qed.

Lemma count_nil p : count p [] = 0%nat.
Proof. reflexivity. Qed.

Lemma file_inv_step path e a : file_inv path a -> file_inv path (loop_step e a).
Proof.
  intros (P & O & H & B & C & L). unfold loop_step.
  destruct (status a) eqn:S;
    [| refine (conj P (conj O (conj H (conj B (conj C _)))));
       intros X; rewrite S in X; discriminate X ..].
  destruct (L eq_refl) as [C0 E0].
  destruct (count_try_block e) as (R1 & O1 & C1 & NO).
  destruct (measuring a).
  - unfold loop_body. destruct (open_ok e); unfold file_inv;
      cbn [status trace file_path f_bound];
      (split; [exact P|]); (split; [|split; [|split; [|split; [|intros L']]]]);
      rewrite ?count_app, ?count_cons, ?count_nil, ?R1, ?O1, ?C1; cbn [is_read_event
        is_open_event is_close_event]; try discriminate; try lia.
    + intros p X. apply in_app_or in X as [X | [X | [X | X]]]; auto;
        try discriminate; [congruence | exfalso; apply (NO p X)].
    + right. destruct H as [[-> _] | (rest & ->)]; rewrite P; simpl; eauto.
    + intros p X. apply in_app_or in X as [X | [X | []]]; auto. congruence.
    + right. destruct H as [[-> _] | (rest & ->)]; rewrite P; simpl; eauto.
  - unfold loop_exit. destruct (f_bound a) eqn:Fb; unfold file_inv;
      cbn [status trace file_path f_bound];
      (split; [exact P|]); (split; [|split; [|split; [|split; [|intros L']]]]);
      rewrite ?count_app, ?count_cons, ?count_nil; cbn [is_read_event
        is_open_event is_close_event];
      try discriminate; try lia; auto.
    + intros p X. apply in_app_or in X as [X | X]; auto. absent X.
    + right. destruct H as [[_ F] | (rest & ->)]; [congruence | simpl; eauto].
Qed.

Lemma file_inv_run path ts : forall a, file_inv path a -> file_inv path (run ts a).
Proof.
  induction ts as [|t ts IH]; intros a H; [exact H|].
  simpl. apply IH. destruct t as [|e]; [exact H | apply file_inv_step, H].
Qed.

(** A session has one log file. Every pass of the loop opens it anew, at
    its very start: the file is opened (and so created) before the first
    read, whether or not a sample is ever accepted. The opens outnumber the
    reads by at most one, while the file is closed at most once in the
    whole run. *)
Theorem one_file_opened_every_pass (ts : list tick) (folder : string) (now : pyfloat) :
  let a := run ts (acquirer_init folder now) in
  (forall p, In (EvOpen p) (trace a) -> p = session_path folder now) /\
  (trace a = [] \/ exists rest, trace a = EvOpen (session_path folder now) :: rest) /\
  (count is_read_event (trace a) <= count is_open_event (trace a) <=
   S (count is_read_event (trace a)))%nat /\
  (count is_close_event (trace a) <= 1)%nat.
Proof.
  intros a.
  assert (I : file_inv (session_path folder now) a).
  { apply file_inv_run. repeat split; auto; try (intros p []); simpl; lia. }
  destruct I as (_ & O & H & B & C & _).
  split; [exact O|]. split; [|split; [exact B | exact C]].
  destruct H as [[E _] | H]; auto.
Qed.

Lemma slept_app t1 t2 : slept (t1 ++ t2) = slept t1 + slept t2.
Proof.
  unfold slept. induction t1 as [|x t1 IH]; simpl; [reflexivity|].
  destruct x; rewrite IH; lia.
Qed.

Lemma slept_try_block e : 250 <= slept (try_block e) <= 10000.
Proof.
  unfold try_block, handler.
  destruct (read e) as [|raw]; [|destruct (parse_raw raw); [destruct (write_ok e)| |]];
    simpl; lia.
Qed.

Lemma sleep_inv_step e a : sleep_inv a -> sleep_inv (loop_step e a).
Proof.
  unfold sleep_inv. intros H. unfold loop_step.
  destruct (status a); [|exact H..].
  destruct (measuring a).
  - unfold loop_body. destruct (open_ok e); cbn [trace];
      rewrite !count_app, !slept_app, !count_cons, ?count_nil;
      cbn [is_read_event slept fold_right].
    + destruct (count_try_block e) as (R1 & _).
      pose proof (slept_try_block e) as B. fold (slept (try_block e)).
      rewrite R1. lia.
    + lia.
  - unfold loop_exit. destruct (f_bound a); cbn [trace]; [|exact H].
    rewrite !count_app, !slept_app.
    change (count is_read_event [EvClose; EvFinished]) with 0%nat.
    change (slept [EvClose; EvFinished]) with 0. lia.
Qed.

Lemma sleep_inv_run ts : forall a, sleep_inv a -> sleep_inv (run ts a).
Proof.
  induction ts as [|t ts IH]; intros a H; [exact H|].
  simpl. apply IH. destruct t as [|e]; [exact H | apply sleep_inv_step, H].
Qed.

(** The polling rate is bounded both ways: every [readline] is followed, in
    its pass, by one sleep of a quarter of a second or of ten seconds, so a
    run with n reads has slept at least n/4 seconds and at most 10 n. *)
Theorem polling_rate_bounded (ts : list tick) (folder : string) (now : pyfloat) :
  let tr := trace (run ts (acquirer_init folder now)) in
  250 * Z.of_nat (count is_read_event tr) <= slept tr <=
  10000 * Z.of_nat (count is_read_event tr).
Proof.
  intros tr. apply (sleep_inv_run ts (acquirer_init folder now)).
  unfold sleep_inv. simpl. lia.
Qed.

(** ** What reaches the log *)

Lemma logged_app t1 t2 : logged (t1 ++ t2) = (logged t1 ++ logged t2)%list.
Proof. unfold logged. apply flat_map_app. Qed.

Lemma logged_try_block e : logged (try_block e) = kept (Cycle e).
Proof.
  unfold try_block, kept, handler.
  destruct (read e) as [|raw]; [reflexivity|].
  destruct (parse_raw raw); [destruct (write_ok e)| |]; reflexivity.
Qed.

Lemma run_logged ts : forall a,
  existsb is_stop ts = false -> forallb opens_file ts = true ->
  status a = Looping -> measuring a = true ->
  logged (trace (run ts a)) = (logged (trace a) ++ flat_map kept ts)%list.
Proof.
  induction ts as [|t ts IH]; intros a Hs Ho Hl Hm; simpl in *.
  - rewrite app_nil_r. reflexivity.
  - apply orb_false_elim in Hs as [Ht Hs]. apply andb_prop in Ho as [Hot Ho].
    destruct t as [|e]; [discriminate|]. simpl in Hot. simpl tick_step.
    unfold loop_step, loop_body. rewrite Hl, Hm, Hot.
    match goal with |- logged (trace (run ts ?a1)) = _ =>
      rewrite (IH a1 Hs Ho eq_refl eq_refl) end.
    cbn [trace]. rewrite logged_app.
    change (logged (EvOpen (file_path a) :: EvPrint "Data acquiring" :: try_block e))
      with (logged (try_block e)).
    rewrite logged_try_block, <- app_assoc. reflexivity.
Qed.

Lemma kept_captured ts :
  (List.length (flat_map kept ts) <= List.length (flat_map captured ts))%nat /\
  (forallb writes_succeed ts = true ->
   List.length (flat_map kept ts) = List.length (flat_map captured ts)).
Proof.
  induction ts as [|t ts [IH1 IH2]]; [split; auto|].
  simpl. rewrite !length_app.
  assert (K : (List.length (kept t) <= List.length (captured t))%nat /\
              (writes_succeed t = true ->
               List.length (kept t) = List.length (captured t))).
  { destruct t as [|e]; simpl; [auto|].
    destruct (read e) as [|raw]; [auto|].
    destruct (parse_raw raw); [|auto..].
    destruct (write_ok e); simpl; split; auto; discriminate. }
  destruct K as [K1 K2]. split; [lia|].
  intros H. apply andb_prop in H as [H1 H2]. rewrite (K2 H1), (IH2 H2). reflexivity.
Qed.

(** The log holds the records of the accepted samples whose write did not
    raise, in the order of capture. A sample whose write raises has already
    been emitted and is not written again: the log can miss samples the
    consumer received, and never holds more than were emitted; when every
    write succeeds it holds one record for each emitted sample. *)
Theorem log_misses_failed_writes (ts : list tick) (folder : string) (now : pyfloat) :
  existsb is_stop ts = false -> forallb opens_file ts = true ->
  let tr := trace (run ts (acquirer_init folder now)) in
  logged tr = flat_map kept ts /\
  (List.length (logged tr) <= List.length (emitted tr))%nat /\
  (forallb writes_succeed ts = true ->
   List.length (logged tr) = List.length (emitted tr)).
Proof.
  intros Hs Ho tr.
  assert (L : logged tr = flat_map kept ts)
    by apply (run_logged ts (acquirer_init folder now) Hs Ho eq_refl eq_refl).
  assert (E : emitted tr = flat_map captured ts)
    by apply (run_emitted ts (acquirer_init folder now) Hs Ho eq_refl eq_refl).
  rewrite L, E. split; [reflexivity|]. apply kept_captured.
Qed.

(** ** Lines the parser refuses *)

(** A slice that holds a character [float] has no use for (anything but
    digits, blanks, the underscore, the signs, the point and the letters of
    the exponent, of inf, infinity and nan) yields no sample: the line is
    refused, whatever else the slice holds. *)
Theorem foreign_character_rejected (text : string) (k : nat) (c : ascii) :
  Py.contains marker text = true ->
  String.get k (field text) = Some c -> number_char c = false ->
  parse text = MalformedNumber.
Proof.
  intros C G N. unfold parse. rewrite C, (float_refuses _ k c G N). reflexivity.
Qed.

(** ** Steady readings *)

Lemma sum_repeat (q : Q) (n : nat) :
  (Statistics.sum (repeat q n) == inject_Z (Z.of_nat n) * q)%Q.
Proof.
  induction n as [|n IH].
  - simpl. ring.
  - change (Statistics.sum (repeat q (S n))) with (q + Statistics.sum (repeat q n))%Q.
    rewrite IH, Nat2Z.inj_succ. unfold Z.succ. rewrite inject_Z_plus. ring.
Qed.

Lemma mean_repeat (q : Q) (n : nat) :
  (0 < n)%nat -> (Statistics.mean (repeat q n) == q)%Q.
Proof.
  intros H. unfold Statistics.mean. rewrite repeat_length, sum_repeat.
  field. unfold Qeq. simpl. lia.
Qed.

Lemma variance_repeat (q : Q) (n : nat) :
  (0 < n)%nat -> (Statistics.variance (repeat q n) == 0)%Q.
Proof.
  intros H. unfold Statistics.variance, Statistics.sum_sq_dev.
  rewrite map_repeat, sum_repeat, (mean_repeat q n H).
  unfold Qdiv. ring.
Qed.

Lemma finite_all_repeat neg (q : Q) (n : nat) :
  Statistics.finite_all (repeat (PFin neg q) n) =
  Some (repeat (if neg then - q else q)%Q n).
Proof. induction n as [|n IH]; simpl; [reflexivity | rewrite IH; reflexivity]. Qed.

Lemma map_all_equal {A B} (f : A -> B) (x : B) (l : list A) :
  (forall d, In d l -> f d = x) -> map f l = repeat x (List.length l).
Proof.
  induction l as [|a l IH]; intros H; [reflexivity|].
  simpl. rewrite (H a), IH; [reflexivity | | left; reflexivity].
  intros d Hd. apply H. right. exact Hd.
Qed.

Lemma skipn_repeat_all {A} (x : A) : forall k n,
  skipn k (repeat x n) = repeat x (n - k).
Proof.
  induction k as [|k IH]; intros [|n]; simpl; auto.
Qed.

(** While every sample held has the same finite value, three or more of
    them, the deviation shown is that of a zero variance: a steady
    temperature reads 0.0. *)
Theorem steady_readings_show_zero (neg : bool) (q : Q)
  (ds : list (pyfloat * pyfloat)) :
  (forall d, In d ds -> fst d = PFin neg q) -> (3 <= List.length ds)%nat ->
  stdev_temp (pushes ds window_init) = StdevRound4 (Statistics.SqrtOf 0).
Proof.
  intros Hall Hlen.
  rewrite stdev_label_pushes.
  replace (List.length ds <? 3)%nat with false by (symmetry; apply Nat.ltb_ge; lia).
  destruct (pushes_retained window_init ds eq_refl eq_refl) as [_ Ey].
  rewrite Ey, (map_all_equal fst (PFin neg q) ds Hall), skipn_repeat_all.
  set (m := (List.length ds - (List.length ds - history_limit))%nat).
  assert (Hm : (3 <= m)%nat) by (unfold m, history_limit; lia).
  unfold Statistics.stdev. rewrite repeat_length, finite_all_repeat.
  replace (m <? 2)%nat with false by (symmetry; apply Nat.ltb_ge; lia).
  do 2 f_equal. change 0%Q with (Qred 0). apply Qred_complete.
  apply variance_repeat. lia.
Qed.

(** ** Stopping and starting again *)

Lemma window_inv_reached evs : window_inv (app_run evs window_init).
Proof. apply window_inv_run, window_inv_init. Qed.

(** Stopping closes the port, so the button cannot start the next
    acquisition right away: pressed again after a stop it only reports that
    there is no serial connection, until the user has connected anew. *)
Theorem restart_needs_reconnect (evs : list app_event)
  (now1 now2 : pyfloat) (opens1 opens2 : bool) :
  let w := app_run evs window_init in
  w_measuring w = true ->
  let stopped := fst (acquire_data now1 opens1 w) in
  acquire_data now2 opens2 stopped =
    (stopped, Returned ["There is not a current serial connection!"]).
Proof.
  intros w M stopped.
  destruct (window_inv_reached evs) as [_ Hs]. destruct (Hs M) as [Es _].
  fold w in Es.
  assert (E : stopped =
    mk_window (folder_text w) None false (stop_last (threads w)) true true
      "Start Acquire" (plot_x w) (plot_y w) (current_temp w) (stdev_temp w)).
  { unfold stopped, acquire_data. rewrite M. simpl. unfold toggle_port.
    cbn [ser]. rewrite Es. reflexivity. }
  rewrite E. reflexivity.
Qed.





(** ** Instances of the further facts *)

(** The entry of a Windows port. *)
Lemma short_port_name_recovered_witness :
  Py.contains " " "COM3" = false /\ (String.length "COM3" <= 14)%nat /\
  Ports.item "COM3 - USB Serial Device (COM3)" = "COM3 - USB Seri..." /\
  Ports.first_word (Ports.item "COM3 - USB Serial Device (COM3)") = "COM3".
Proof.
  assert (L : (String.length "COM3" <= 14)%nat) by (simpl; lia).
  split; [reflexivity|]. split; [exact L|]. split; [reflexivity|].
  apply (short_port_name_recovered "COM3" "- USB Serial Device (COM3)" eq_refl L).
Defined.

(** The entry of a macOS port: the name handed on is not the device. *)
Lemma long_port_name_truncated_witness :
  Py.contains " " "/dev/cu.usbmodem14201" = false /\
  (15 <= String.length "/dev/cu.usbmodem14201")%nat /\
  Ports.first_word (Ports.item "/dev/cu.usbmodem14201 - n/a") =
    "/dev/cu.usbmode...".
Proof.
  assert (L : (15 <= String.length "/dev/cu.usbmodem14201")%nat) by (simpl; lia).
  split; [reflexivity|]. split; [exact L|].
  apply (proj1 (long_port_name_truncated "/dev/cu.usbmodem14201" " - n/a" eq_refl L)).
Defined.

(** From the panel at start-up, with one port listed. *)
Lemma failed_open_needs_two_clicks_witness :
  let p := Ports.init_ports ["COM3 - USB Serial Device (COM3)"] Ports.panel_init in
  Ports.p_ser p = None /\
  Ports.p_ser (Ports.toggle_port true (Ports.toggle_port false p)) = None /\
  Ports.p_ser (Ports.toggle_port true
                 (Ports.toggle_port true (Ports.toggle_port false p))) =
    Some (Ports.mk_serial "COM3" true).
Proof.
  intros p.
  destruct (failed_open_needs_two_clicks p eq_refl) as (_ & B & C).
  split; [reflexivity|]. split; [exact B | exact C].
Defined.

(** A press with the port open and a folder set. *)
Lemma start_exactly_when_ready_witness :
  let w := app_run [ClickConnect true; ClickBrowse "logs" true] window_init in
  w_measuring w = false /\ ser w = Some true /\ folder_text w <> EmptyString /\
  w_measuring (fst (acquire_data clock0 true w)) = true /\
  threads (fst (acquire_data clock0 true w)) = [acquirer_init "logs" clock0].
Proof.
  intros w.
  assert (N : folder_text w <> EmptyString) by discriminate.
  destruct (start_exactly_when_ready clock0 true w eq_refl) as (A & B & _).
  destruct (B eq_refl N) as (_ & T & _).
  split; [reflexivity|]. split; [reflexivity|]. split; [exact N|].
  split; [apply A; auto | exact T].
Defined.

(** The acquirer of a first session. *)
Lemma log_files_in_browsed_folders_witness :
  let evs := [ClickConnect true; ClickBrowse "logs" true; ClickAcquire clock0 true] in
  In (acquirer_init "logs" clock0) (threads (app_run evs window_init)) /\
  exists folder now,
    file_path (acquirer_init "logs" clock0) = session_path folder now /\
    folder <> EmptyString /\ In folder (browsed evs) /\ In now (start_times evs).
Proof.
  intros evs.
  assert (H : In (acquirer_init "logs" clock0) (threads (app_run evs window_init)))
    by (left; reflexivity).
  split; [exact H|].
  apply (log_files_in_browsed_folders evs (acquirer_init "logs" clock0) H).
Defined.

(** Two sessions in one folder. *)
Lemma session_files_differ_witness :
  sample_text (PFin false (41 # 2)) <> sample_text clock0 /\
  render sample_text (file_path (acquirer_init "logs" (PFin false (41 # 2)))) =
    "logs/temperature_log_20.5.csv" /\
  render sample_text (file_path (acquirer_init "logs" clock0)) =
    "logs/temperature_log_1700000000.0.csv".
Proof.
  assert (N : sample_text (PFin false (41 # 2)) <> sample_text clock0) by discriminate.
  destruct (session_files_differ sample_text "logs" (PFin false (41 # 2)) clock0 N)
    as (A & _).
  split; [exact N|]. split; [exact A | reflexivity].
Defined.

(** A pass whose write raises, between two that succeed. *)
Lemma log_misses_failed_writes_witness :
  let failing :=
    mk_cycle_env true (ReadBytes (bytes_of "T,0021.000")) clock0 gmt0 false in
  let ts := [Cycle (line_env "T,0020.500"); Cycle failing;
             Cycle (line_env "T,0022.000")] in
  existsb is_stop ts = false /\ forallb opens_file ts = true /\
  List.length (emitted (trace (run ts (acquirer_init "logs" clock0)))) = 3%nat /\
  logged (trace (run ts (acquirer_init "logs" clock0))) =
    [log_record (PFin false (41 # 2)) clock0 "14/11/2023 22:13:20 +0000";
     log_record (PFin false 22) clock0 "14/11/2023 22:13:20 +0000"].
Proof.
  intros failing ts.
  destruct (log_misses_failed_writes ts "logs" clock0 eq_refl eq_refl) as (L & _).
  split; [reflexivity|]. split; [reflexivity|]. split; [reflexivity|].
  rewrite L. reflexivity.
Defined.

(** A letter in the middle of the number. *)
Lemma foreign_character_rejected_witness :
  let text := Py.str_bytes (bytes_of "T,00x0.500") in
  Py.contains marker text = true /\
  String.get 2 (field text) = Some "x"%char /\ number_char "x" = false /\
  parse text = MalformedNumber.
Proof.
  intros text. split; [reflexivity|]. split; [reflexivity|]. split; [reflexivity|].
  apply (foreign_character_rejected text 2 "x" eq_refl eq_refl eq_refl).
Defined.

(** Four readings of 21.5. *)
Lemma steady_readings_show_zero_witness :
  let ds := [temp 43 2; temp 43 2; temp 43 2; temp 43 2] in
  (forall d, In d ds -> fst d = PFin false (43 # 2)) /\
  (3 <= List.length ds)%nat /\
  stdev_temp (pushes ds window_init) = StdevRound4 (Statistics.SqrtOf 0).
Proof.
  intros ds.
  assert (A : forall d, In d ds -> fst d = PFin false (43 # 2)).
  { intros d H. simpl in H. repeat (destruct H as [<- | H]; [reflexivity|]).
    contradiction. }
  assert (L : (3 <= List.length ds)%nat) by (simpl; lia).
  split; [exact A|]. split; [exact L|].
  apply (steady_readings_show_zero false (43 # 2) ds A L).
Defined.

(** A start, a stop and another press. *)
Lemma restart_needs_reconnect_witness :
  let evs := [ClickConnect true; ClickBrowse "logs" true; ClickAcquire clock0 true] in
  let w := app_run evs window_init in
  w_measuring w = true /\
  snd (acquire_data clock0 true (fst (acquire_data clock0 true w))) =
    Returned ["There is not a current serial connection!"].
Proof.
  intros evs w. split; [reflexivity|].
  exact (f_equal snd (restart_needs_reconnect evs clock0 clock0 true true eq_refl)).
Defined.

